(** * cp18-app: the app shell, the exterior-check screen and the map-route view

    A shallow embedding of [src/App.js],
    [src/screens/RidePreparation/ExteriorCheckScreen.js] and the [MapRoute]
    component, followed by the properties proved about them.

    Conventions of the embedding:
    - a React component is a record of its instance fields; [setState] merges
      a patch into the state, at once in the code run from a promise or from
      a handler that reads no state afterwards, on the return of
      [componentDidUpdate] when made inside it, and not at all once the
      component is unmounted;
    - the unmount also sets the ref [this.map] to null, so that a call on it
      raises and ends the function that makes it;
    - calls that leave the component (alerts, the navigator, the map widget,
      the console, callbacks received as props) are logged as [Effect]s by a
      small state-and-log monad [Cmd];
    - an [async] function is cut at each [await]: what runs before it is one
      transition, and what runs after it is the transition taken when the
      awaited promise settles, with the settled value carried by the event. *)

From Stdlib Require Import ZArith QArith Qround Lia.
From stdpp Require Import base option strings list gmap.

Local Open Scope Z_scope.
Local Open Scope string_scope.
Local Open Scope list_scope.
Local Open Scope stdpp_scope.

(** ** JavaScript values that the code tests for truth *)

Module Js.

(** A number-valued property; [None] is [null] or [undefined]. *)
Definition num := option Q.

(** A boolean-valued property read, [None] being [undefined]. *)
Definition truthy (v : option bool) : bool := default false v.

(** [!v] *)
Definition lnot (v : option bool) : bool := negb (truthy v).

(** [a && b]: [a] when [a] is falsy, [b] otherwise. *)
Definition land (a b : option bool) : option bool :=
  if truthy a then b else a.

(** Truth of a number: [0], [null] and [undefined] are falsy. *)
Definition truthy_num (n : num) : bool :=
  match n with
  | Some q => negb (Qeq_bool q 0)
  | None => false
  end.

(** The value of an expression that may be a promise: [Now v] is the plain
    value [v], [Promise v] a promise that resolves to [v]. *)
Inductive awaitable (A : Type) : Type :=
| Now (v : A)
| Promise (v : A).
Arguments Now {A} v.
Arguments Promise {A} v.

(** [!e] on such a value: a promise is an object, hence truthy. *)
Definition lnot_awaitable (e : awaitable bool) : bool :=
  match e with
  | Now v => negb v
  | Promise _ => false
  end.

(** [await e] *)
Definition await {A : Type} (e : awaitable A) : A :=
  match e with
  | Now v => v
  | Promise v => v
  end.

End Js.

(** ** Geographic data *)

(** [{ latitude, longitude }] *)
Record Coords : Type := mkCoords {
  latitude : Js.num;
  longitude : Js.num;
}.

(** A maneuver point of the route: [{ latitude, longitude, bearing }]. *)
Record Step : Type := mkStep {
  step_latitude : Js.num;
  step_longitude : Js.num;
  bearing : Js.num;
}.

(** Only the [latitude] and [longitude] of a step are read by the distance
    helper. *)
Definition step_point (s : Step) : Coords :=
  mkCoords (step_latitude s) (step_longitude s).

(** [focusedLocation] *)
Record Region : Type := mkRegion {
  region_latitude : Js.num;
  region_longitude : Js.num;
  latitudeDelta : Q;
  longitudeDelta : Q;
}.

(** What [geolib.getDistance] hands back. The helper is third-party code: it
    yields a whole number of meters, [NaN] when its iteration does not
    converge, and raises when a point is [undefined]. *)
Inductive Distance : Type :=
| Meters (m : Z)
| NaN
| Raise.

(** ** Effects and the command monad *)

Record AlertButton : Type := mkAlertButton {
  button_text : string;
  button_style : option string;
  (** the route [navigation.navigate] is called with when pressed *)
  button_onPress : option string;
}.

Inductive Effect : Type :=
| ConsoleWarn {E : Type} (error : E)
| AlertAlert (title message : string) (buttons : list AlertButton)
| StartActivity (action : string)
| GetProviderStatus
| IsPermissionGranted (permission : string)
| LibGetLocation
| MapboxGetDirections (startLoc destinationLoc : Coords)
| WatchPosition
| WatchRemove
| AsyncSleep (ms : Z)
| MapAnimateToRegion (r : Region)
| MapFitToCoordinates (cs : list Coords)
| MapAnimateToCoordinate (c : Coords)
| MapAnimateToBearing (b : Js.num)
| MapAnimateToViewingAngle (angle : Z)
| OnDestinationReached
| LoggerSlog (event : string).

Definition Cmd (S A : Type) : Type := S → A * S * list Effect.

Module Cmd.
Section ops.
Context {S : Type}.

Definition ret {A} (a : A) : Cmd S A := λ s, (a, s, []).

Definition bind {A B} (m : Cmd S A) (k : A → Cmd S B) : Cmd S B :=
  λ s, let '(a, s1, l1) := m s in
       let '(b, s2, l2) := k a s1 in
       (b, s2, l1 ++ l2).

Definition get : Cmd S S := λ s, (s, s, []).
Definition gets {A} (f : S → A) : Cmd S A := λ s, (f s, s, []).
Definition modify (f : S → S) : Cmd S unit := λ s, (tt, f s, []).
Definition emit (e : Effect) : Cmd S unit := λ s, (tt, s, [e]).
Definition when (b : bool) (m : Cmd S unit) : Cmd S unit :=
  if b then m else ret tt.

(** The component and the log a command leaves behind. *)
Definition exec {A} (m : Cmd S A) (s : S) : S * list Effect :=
  let '(_, s', l) := m s in (s', l).
End ops.
End Cmd.

#[export] Instance Cmd_ret {S} : MRet (Cmd S) := @Cmd.ret S.
#[export] Instance Cmd_bind {S} : MBind (Cmd S) := λ A B k m, Cmd.bind m k.

(** The component a command leaves behind. *)
Definition post {S A} (m : Cmd S A) (s : S) : S := (m s).1.2.

(** [m] keeps [P]: started where [P] holds, it ends where [P] holds. *)
Definition preserves {S A} (P : S → Prop) (m : Cmd S A) : Prop :=
  ∀ s, P s → P (post m s).

(** [m] keeps [P] and logs only calls that are [Q]. *)
Definition keeps {S A} (P : S → Prop) (Q : Effect → Prop) (m : Cmd S A) : Prop :=
  ∀ s, P s → P (post m s) ∧ Forall Q (m s).2.

(** ** [ExteriorCheckScreen] *)

Module ExteriorCheckScreen.

(** [this.state] is a JavaScript object: [toggleCheckbox] writes it through
    a computed key, so it is kept as a finite map from property names. *)
Abbreviation State := (gmap string bool).

(** [this.setState(patch)] *)
Definition setState (patch : State) : Cmd State unit :=
  Cmd.modify (λ st, patch ∪ st).

Definition initialState : State :=
  list_to_map [
    ("rearChecked", false);
    ("driverChecked", false);
    ("frontChecked", false);
    ("codriverChecked", false);
    ("issueModalVisible", false)
  ].

Definition toggleCheckbox (id : string) : Cmd State unit :=
  st ← Cmd.get;
  let newValue := Js.lnot (st !! id) in
  setState {[ id := newValue ]}.

Definition itemsChecked (st : State) : option bool :=
  let rearChecked := st !! "rearChecked" in
  let driverChecked := st !! "driverChecked" in
  let frontChecked := st !! "frontChecked" in
  let codriverChecked := st !! "codriverChecked" in
  Js.land (Js.land (Js.land rearChecked driverChecked) frontChecked)
          codriverChecked.

Definition confirmationMessage : string :=
  "Confirm that you checked the exterior readiness of the "
  ++ "car according to your besten Wissen and Gewissens".

Definition onPressOpenCar : Cmd State unit :=
  st ← Cmd.get;
  if Js.lnot (itemsChecked st) then mret tt
  else
    Cmd.emit (AlertAlert "Confirmation Request" confirmationMessage [
      mkAlertButton "Cancel" (Some "cancel") None;
      mkAlertButton "OK" None (Some "InteriorCheck")
    ]).

Definition showIssueModal : Cmd State unit :=
  setState {[ "issueModalVisible" := true ]}.

Definition hideIssueModal : Cmd State unit :=
  setState {[ "issueModalVisible" := false ]}.

(** The props [render] computes from the state. *)
Record CarCheckItem : Type := mkCarCheckItem {
  item_title : string;
  item_checked : option bool;
  (** the id [onPressCheck] passes to [toggleCheckbox] *)
  item_onPressCheck : string;
  item_issues : list string;
}.

Record OpenCarButton : Type := mkOpenCarButton {
  open_title : string;
  open_disabled : bool;
  open_containerStyle : list string;
  open_textStyle : string;
  open_iconStyle : string;
}.

Record View : Type := mkView {
  view_items : list CarCheckItem;
  view_openCar : OpenCarButton;
  view_issueModalVisible : option bool;
}.

Definition render (st : State) : View :=
  let rearChecked := st !! "rearChecked" in
  let driverChecked := st !! "driverChecked" in
  let frontChecked := st !! "frontChecked" in
  let codriverChecked := st !! "codriverChecked" in
  let issueModalVisible := st !! "issueModalVisible" in
  mkView
    [ mkCarCheckItem "Check Rear Side" rearChecked "rearChecked"
        ["Driver Door: Big Dent"; "Driver Window: Scratch"];
      mkCarCheckItem "Check Driver Side" driverChecked "driverChecked" [];
      mkCarCheckItem "Check Front Side" frontChecked "frontChecked" [];
      mkCarCheckItem "Check Co-Driver Side" codriverChecked "codriverChecked"
        ["Co-Driver door: Big Dent"] ]
    (mkOpenCarButton "Open car"
       (Js.lnot (itemsChecked st))
       [ "buttonContainer";
         if Js.truthy (itemsChecked st) then "buttonEnabled"
         else "buttonDisabled" ]
       (if Js.truthy (itemsChecked st) then "buttonTextEnabled"
        else "buttonTextDisabled")
       (if Js.truthy (itemsChecked st) then "buttonIconEnabled"
        else "buttonIconDisabled"))
    issueModalVisible.

(** The four checklist flags all read [true]. *)
Definition allFour (st : State) : Prop :=
  st !! "rearChecked" = Some true ∧ st !! "driverChecked" = Some true
  ∧ st !! "frontChecked" = Some true ∧ st !! "codriverChecked" = Some true.

(** The ids the four rows of the check list pass to [toggleCheckbox]. *)
Definition checklistIds : list string :=
  ["rearChecked"; "driverChecked"; "frontChecked"; "codriverChecked"].

(** The checks pressed one after the other, [ids] naming the rows. *)
Fixpoint presses (ids : list string) : Cmd State unit :=
  match ids with
  | [] => mret tt
  | id :: rest => toggleCheckbox id;; presses rest
  end.

(** How often [id] occurs in [ids]. *)
Definition pressCount (id : string) (ids : list string) : nat :=
  length (filter (λ x, x = id) ids).

End ExteriorCheckScreen.

(** ** [App] *)

Module App.

(** The two observable fields of the component. *)
Record App : Type := mkApp {
  isLoadingComplete : bool;
  initialRoute : string;
}.

Definition initial : App := mkApp false "Auth".

Definition _handleLoadingError {E : Type} (error : E) : Cmd App unit :=
  Cmd.emit (ConsoleWarn error).

(** [authenticated] is what [userStore.authenticated] reads as, tested for
    truth by the conditional. *)
Definition _handleFinishLoading (authenticated : option bool) : Cmd App unit :=
  Cmd.modify (λ app, mkApp true (initialRoute app));;
  Cmd.modify (λ app,
    mkApp (isLoadingComplete app)
          (if Js.truthy authenticated then "Main" else "Auth")).

(** Which branch of [render] is taken: [true] for the loading screen. *)
Definition rendersLoading (skipLoadingScreen : option bool) (app : App) : bool :=
  negb (isLoadingComplete app) && Js.lnot skipLoadingScreen.

(** What [render] returns: the loading element wired to the three handlers,
    or the navigator under the store provider, with a status bar on iOS. *)
Inductive Screen : Type :=
| AppLoading
| AppNavigator (statusBar : bool) (initialRoute : string).

Definition render (platformOS : string) (skipLoadingScreen : option bool)
    (app : App) : Screen :=
  if negb (isLoadingComplete app) && Js.lnot skipLoadingScreen
  then AppLoading
  else AppNavigator (String.eqb platformOS "ios") (initialRoute app).

End App.

(** ** [MapRoute] *)

Module Props.
Record t : Type := mk {
  showDirections : bool;
  showConfirmationButton : bool;
  showNavigationButton : bool;
  isNavigation : bool;
  pauseNavigation : bool;
  latitude : Js.num;
  longitude : Js.num;
  userLatitude : Js.num;
  userLongitude : Js.num;
  initialFocus : string;
  trackNavigationEvent : bool;
}.
End Props.

Module State.
Record t : Type := mk {
  coordinates : list Coords;
  steps : list Step;
  currentCoordinateIndex : nat;
  focusedLocation : Region;
  destinationReached : bool;
  isMapReady : bool;
  isNavigation : bool;
}.

Definition set_route (cs : list Coords) (ss : list Step) (s : t) : t :=
  mk cs ss (currentCoordinateIndex s) (focusedLocation s)
     (destinationReached s) (isMapReady s) (isNavigation s).
Definition set_steps (ss : list Step) (s : t) : t :=
  mk (coordinates s) ss (currentCoordinateIndex s) (focusedLocation s)
     (destinationReached s) (isMapReady s) (isNavigation s).
Definition set_currentCoordinateIndex (i : nat) (s : t) : t :=
  mk (coordinates s) (steps s) i (focusedLocation s)
     (destinationReached s) (isMapReady s) (isNavigation s).
Definition set_focusedLocation (r : Region) (s : t) : t :=
  mk (coordinates s) (steps s) (currentCoordinateIndex s) r
     (destinationReached s) (isMapReady s) (isNavigation s).
Definition set_destinationReached (b : bool) (s : t) : t :=
  mk (coordinates s) (steps s) (currentCoordinateIndex s) (focusedLocation s)
     b (isMapReady s) (isNavigation s).
Definition set_isMapReady (b : bool) (s : t) : t :=
  mk (coordinates s) (steps s) (currentCoordinateIndex s) (focusedLocation s)
     (destinationReached s) b (isNavigation s).
Definition set_isNavigation (b : bool) (s : t) : t :=
  mk (coordinates s) (steps s) (currentCoordinateIndex s) (focusedLocation s)
     (destinationReached s) (isMapReady s) b.
End State.

Module MapRoute.

(** The response of the directions service, as far as [getDirections]
    reads it: [routes[0].geometry.coordinates] and [routes[0].legs[0].steps],
    every point being [[longitude, latitude]]. *)
Record Maneuver : Type := mkManeuver {
  location : Js.num * Js.num;
  bearing_after : Js.num;
}.

Record DirectionsResponse : Type := mkDirectionsResponse {
  geometry_coordinates : list (Js.num * Js.num);
  leg_steps : list Maneuver;
}.

(** Where [componentDidMount] is suspended. The props it destructured on
    entry travel with it. *)
Inductive MountPhase : Type :=
| NotMounted
| AwaitProviderStatus (p : Props.t)
| AwaitPermission (p : Props.t) (condition : bool)
| AwaitLocation (p : Props.t) (resolved : option Coords)
| AwaitDirections (p : Props.t)
| AwaitWatch
| MountReturned.

(** A [startNavigation] call suspended at [await this.getLocation()]. *)
Record StartFrame : Type := mkStartFrame {
  frame_trackNavigationEvent : bool;
  frame_location : option Coords;
}.

Record Component : Type := mkComponent {
  props : Props.t;
  state : State.t;
  cancelNavigation : bool;
  (** [this.watchid] holds a subscription *)
  watchid : bool;
  (** [global.devSettings.settings.get('fakeNavigation')] *)
  fakeNavigation : bool;
  (** the position subscription is delivering *)
  subscribed : bool;
  mounting : MountPhase;
  (** suspended [startNavigation] calls, oldest first *)
  starting : list StartFrame;
  (** [simulateNavigation] calls suspended at [await asyncSleep(1500)] *)
  sleeping : nat;
}.

Definition set_props (p : Props.t) (c : Component) : Component :=
  mkComponent p (state c) (cancelNavigation c) (watchid c)
    (fakeNavigation c) (subscribed c) (mounting c) (starting c) (sleeping c).
Definition set_state (f : State.t → State.t) (c : Component) : Component :=
  mkComponent (props c) (f (state c)) (cancelNavigation c) (watchid c)
    (fakeNavigation c) (subscribed c) (mounting c) (starting c) (sleeping c).
Definition set_cancelNavigation (b : bool) (c : Component) : Component :=
  mkComponent (props c) (state c) b (watchid c)
    (fakeNavigation c) (subscribed c) (mounting c) (starting c) (sleeping c).
Definition set_watchid (b : bool) (c : Component) : Component :=
  mkComponent (props c) (state c) (cancelNavigation c) b
    (fakeNavigation c) (subscribed c) (mounting c) (starting c) (sleeping c).
Definition set_fakeNavigation (b : bool) (c : Component) : Component :=
  mkComponent (props c) (state c) (cancelNavigation c) (watchid c)
    b (subscribed c) (mounting c) (starting c) (sleeping c).
Definition set_subscribed (b : bool) (c : Component) : Component :=
  mkComponent (props c) (state c) (cancelNavigation c) (watchid c)
    (fakeNavigation c) b (mounting c) (starting c) (sleeping c).
Definition set_mounting (m : MountPhase) (c : Component) : Component :=
  mkComponent (props c) (state c) (cancelNavigation c) (watchid c)
    (fakeNavigation c) (subscribed c) m (starting c) (sleeping c).
Definition set_starting (l : list StartFrame) (c : Component) : Component :=
  mkComponent (props c) (state c) (cancelNavigation c) (watchid c)
    (fakeNavigation c) (subscribed c) (mounting c) l (sleeping c).
Definition set_sleeping (n : nat) (c : Component) : Component :=
  mkComponent (props c) (state c) (cancelNavigation c) (watchid c)
    (fakeNavigation c) (subscribed c) (mounting c) (starting c) n.

(** [this.setState(...)]: the patch is merged into the state. On a component
    that has been unmounted the framework drops the update; the unmount is
    what sets [cancelNavigation]. *)
Definition setState (f : State.t → State.t) : Cmd Component unit :=
  c ← Cmd.get;
  if cancelNavigation c then mret tt
  else Cmd.modify (set_state f).

(** What the outside world can make happen to a component: the framework
    calling a lifecycle method or a handler, and a promise the component
    awaits being settled. An event that does not apply (no call is waiting
    for it, or the component is not on screen) is ignored. *)
Inductive Event : Type :=
(** the framework calls [componentDidMount] *)
| DidMount
(** [Location.getProviderStatusAsync()] resolves; [granted] is what the call
    [lib.isPermissionGranted(Permissions.LOCATION)] made next returns *)
| ProviderStatus (locationServicesEnabled : bool) (granted : Js.awaitable bool)
(** the [await] of the permission test resumes *)
| PermissionAwaited
(** [await this.getLocation()] of [componentDidMount] resumes; [fromLib] is
    the answer of [lib.getLocation] if it was asked *)
| MountLocation (fromLib : Coords)
(** the directions request resolves *)
| Directions (res : DirectionsResponse)
(** [Location.watchPositionAsync] resolves with the subscription *)
| WatchStarted
(** the position subscription delivers a location *)
| Position (coords : Coords)
(** the map widget calls [onMapReady] *)
| MapReady
(** the parent re-renders the component with new props *)
| PropsChanged (p : Props.t)
(** the user presses the start-navigation button *)
| PressStartNavigation
(** [await this.getLocation()] of the oldest suspended [startNavigation]
    resumes *)
| StartLocation (fromLib : Coords)
(** one [asyncSleep(1500)] of [simulateNavigation] is over *)
| Wake
(** the developer setting [fakeNavigation] is switched *)
| DevSetting (fakeNavigation : bool)
(** the framework calls [componentWillUnmount] *)
| WillUnmount.

Section code.
(** [geolib.getDistance(start, end)]; [end] may be [undefined]. *)
Context (getDistance : Coords → option Coords → Distance).
(** [Dimensions.get('window')] *)
Context (width height : Q).

Definition constructor (p : Props.t) (fake : bool) : Component :=
  mkComponent p
    (State.mk [] [] 0%nat
       (mkRegion (Props.latitude p) (Props.longitude p)
          0.0122 (width / height * 0.0122))
       false false false)
    false false fake false NotMounted [] 0%nat.

(** [getLocation]: the user position given by the props, or else a call
    to [lib.getLocation] whose result the caller awaits. *)
Definition getLocation : Cmd Component (option Coords) :=
  c ← Cmd.get;
  let userLatitude := Props.userLatitude (props c) in
  let userLongitude := Props.userLongitude (props c) in
  if Js.truthy_num userLatitude
  then mret (Some (mkCoords userLatitude userLongitude))
  else Cmd.emit LibGetLocation;; mret None.

Definition focusOnCoords (coords : Coords) : Cmd Component unit :=
  c ← Cmd.get;
  let focusedLocation := State.focusedLocation (state c) in
  let region :=
    mkRegion (latitude coords) (longitude coords)
      (latitudeDelta focusedLocation) (longitudeDelta focusedLocation) in
  Cmd.emit (MapAnimateToRegion region);;
  setState (State.set_focusedLocation region).

(** [getDirections] up to its [await]. *)
Definition getDirections (startLoc destinationLoc : Coords)
  : Cmd Component unit :=
  Cmd.emit (MapboxGetDirections startLoc destinationLoc).

(** [getDirections] from its [await] on; the route coordinates are
    returned. *)
Definition getDirections_resume (res : DirectionsResponse)
  : Cmd Component (list Coords) :=
  let coordinates :=
    (λ point, mkCoords (snd point) (fst point)) <$> geometry_coordinates res in
  let steps :=
    (λ step, mkStep (snd (location step)) (fst (location step))
               (bearing_after step)) <$> leg_steps res in
  setState (State.set_route coordinates steps);;
  mret coordinates.

(** [animateToCoordinates]: the log has the call the function makes on
    [this.map]; nothing follows it in the function. *)
Definition animateToCoordinates (coords : Coords) : Cmd Component unit :=
  if Js.truthy_num (latitude coords) && Js.truthy_num (longitude coords)
  then Cmd.emit
         (MapAnimateToCoordinate (mkCoords (latitude coords) (longitude coords)))
  else mret tt.

(** The [for] loop of [animateNavigation] from index [i] on, [steps]
    being the part of the list not yet visited: the first index whose
    step is closer than 10, if the loop gets that far. *)
Fixpoint firstManeuver (coords : Coords) (steps : list Step) (i : nat)
  : option (nat * Step) :=
  match steps with
  | [] => None
  | s :: rest =>
      match getDistance coords (Some (step_point s)) with
      | Meters distance =>
          if (distance <? 10)%Z then Some (i, s)
          else firstManeuver coords rest (S i)
      | NaN => firstManeuver coords rest (S i)
      | Raise => None
      end
  end.

Definition animateNavigation (coords : Coords) : Cmd Component unit :=
  c ← Cmd.get;
  let steps := State.steps (state c) in
  match firstManeuver coords steps 0 with
  | Some (i, s) =>
      (* the unmount detaches the ref: [this.map] is null, the call raises
         and the rest of the function is not reached *)
      if cancelNavigation c then mret tt
      else
        Cmd.emit (MapAnimateToBearing (bearing s));;
        (* [steps.splice(i, 1)] changes the array of the state in place;
           the [setState] that follows hands the same array over *)
        Cmd.modify (set_state (State.set_steps (delete i steps)));;
        setState (State.set_steps (delete i steps))
  | None => mret tt
  end.

Definition checkUserLocation (coords : Coords) : Cmd Component unit :=
  c ← Cmd.get;
  let coordinates := State.coordinates (state c) in
  let isNavigation := State.isNavigation (state c) in
  Cmd.when isNavigation
    (animateToCoordinates coords;; animateNavigation coords);;
  let destinationCoords := last coordinates in
  match getDistance coords destinationCoords with
  | Meters distance =>
      if (distance <=? 20)%Z
      then setState (State.set_destinationReached true);;
           Cmd.emit OnDestinationReached
      else mret tt
  | NaN => mret tt
  | Raise => mret tt
  end.

(** [simulateNavigation] up to [await asyncSleep(1500)]. Under the bounds
    test [coordinates[currentCoordinateIndex]] is defined. *)
Definition simulateNavigation : Cmd Component unit :=
  c ← Cmd.get;
  let pauseNavigation := Props.pauseNavigation (props c) in
  let coordinates := State.coordinates (state c) in
  let currentCoordinateIndex := State.currentCoordinateIndex (state c) in
  if negb pauseNavigation
     && bool_decide (currentCoordinateIndex < length coordinates)%nat
  then
    from_option checkUserLocation (mret tt)
      (coordinates !! currentCoordinateIndex);;
    Cmd.emit (AsyncSleep 1500);;
    Cmd.modify (λ c, set_sleeping (S (sleeping c)) c)
  else mret tt.

(** [simulateNavigation] after the sleep. *)
Definition simulateNavigation_resume : Cmd Component unit :=
  c ← Cmd.get;
  if cancelNavigation c then mret tt
  else
    setState (λ prevState,
      State.set_currentCoordinateIndex
        (State.currentCoordinateIndex prevState + 1) prevState);;
    simulateNavigation.

(** [startNavigation] up to [await this.getLocation()], without its
    [setState]. *)
Definition startNavigation_call : Cmd Component unit :=
  c ← Cmd.get;
  let trackNavigationEvent := Props.trackNavigationEvent (props c) in
  let coordinates := State.coordinates (state c) in
  Cmd.emit (MapFitToCoordinates (take 2 coordinates));;
  Cmd.emit (MapAnimateToViewingAngle 45);;
  r ← getLocation;
  Cmd.modify (λ c,
    set_starting (starting c ++ [mkStartFrame trackNavigationEvent r]) c).

(** [startNavigation] up to [await this.getLocation()], as the handler of
    the button. *)
Definition startNavigation : Cmd Component unit :=
  setState (State.set_isNavigation true);;
  startNavigation_call.

(** [startNavigation] once the location is there. *)
Definition startNavigation_resume (fromLib : Coords) (f : StartFrame)
  : Cmd Component unit :=
  let currentLocation := default fromLib (frame_location f) in
  animateNavigation currentLocation;;
  Cmd.when (frame_trackNavigationEvent f)
    (Cmd.emit (LoggerSlog "SHIFT_INTERCEPTING"));;
  fake ← Cmd.gets fakeNavigation;
  Cmd.when fake simulateNavigation.

(** [componentDidMount], one definition per stretch between awaits. *)
Definition componentDidMount : Cmd Component unit :=
  p ← Cmd.gets props;
  Cmd.emit GetProviderStatus;;
  Cmd.modify (set_mounting (AwaitProviderStatus p)).

Definition componentDidMount_status (p : Props.t)
    (locationServicesEnabled : bool) (granted : Js.awaitable bool)
  : Cmd Component unit :=
  if negb locationServicesEnabled then
    Cmd.emit (StartActivity "ACTION_LOCATION_SOURCE_SETTINGS");;
    Cmd.modify (set_mounting MountReturned)
  else
    (* [await !lib.isPermissionGranted(Permissions.LOCATION)]: the call,
       then the negation, then the await *)
    Cmd.emit (IsPermissionGranted "LOCATION");;
    Cmd.modify
      (set_mounting (AwaitPermission p (Js.await (Js.Now (Js.lnot_awaitable granted))))).

Definition componentDidMount_permission (p : Props.t) (condition : bool)
  : Cmd Component unit :=
  if condition then
    Cmd.emit (AlertAlert "Permission" "You need to enable location services" []);;
    Cmd.modify (set_mounting MountReturned)
  else
    r ← getLocation;
    Cmd.modify (set_mounting (AwaitLocation p r)).

Definition componentDidMount_location (p : Props.t)
    (resolved : option Coords) (fromLib : Coords) : Cmd Component unit :=
  let currentLocation := default fromLib resolved in
  let destinationLocation :=
    mkCoords (Props.latitude p) (Props.longitude p) in
  c ← Cmd.get;
  if cancelNavigation c then
    (* the unmount detaches the ref: [this.map] is null, [focusOnCoords]
       raises at its map call and the sequence ends there *)
    Cmd.modify (set_mounting MountReturned)
  else
    (if String.eqb (Props.initialFocus p) "gps"
     then focusOnCoords currentLocation
     else focusOnCoords destinationLocation);;
    if Props.showDirections p then
      getDirections currentLocation destinationLocation;;
      Cmd.modify (set_mounting (AwaitDirections p))
    else Cmd.modify (set_mounting MountReturned).

Definition componentDidMount_directions (res : DirectionsResponse)
  : Cmd Component unit :=
  coords ← getDirections_resume res;
  c ← Cmd.get;
  if cancelNavigation c then
    (* [this.map] is null: [fitToCoordinates] raises, no watch is asked for *)
    Cmd.modify (set_mounting MountReturned)
  else
    Cmd.emit (MapFitToCoordinates coords);;
    Cmd.emit WatchPosition;;
    Cmd.modify (set_subscribed true);;
    Cmd.modify (set_mounting AwaitWatch).

Definition componentDidMount_watch : Cmd Component unit :=
  Cmd.modify (set_watchid true);;
  Cmd.modify (set_mounting MountReturned).

Definition componentDidUpdate (prevProps : Props.t) : Cmd Component unit :=
  p ← Cmd.gets props;
  let isNavigation := Props.isNavigation p in
  let pauseNavigation := Props.pauseNavigation p in
  (* The framework applies a [setState] made inside [componentDidUpdate]
     when the method has returned: the flag [startNavigation] sets is not in
     [this.state] while [simulateNavigation] runs. The other patches made
     in here write fields that nothing reads before the method returns. *)
  Cmd.when
    (isNavigation && negb (Bool.eqb isNavigation (Props.isNavigation prevProps)))
    startNavigation_call;;
  Cmd.when
    (negb pauseNavigation
     && negb (Bool.eqb pauseNavigation (Props.pauseNavigation prevProps)))
    simulateNavigation;;
  Cmd.when
    (isNavigation && negb (Bool.eqb isNavigation (Props.isNavigation prevProps)))
    (setState (State.set_isNavigation true)).

Definition componentWillUnmount : Cmd Component unit :=
  Cmd.modify (set_cancelNavigation true);;
  c ← Cmd.get;
  if watchid c then
    Cmd.emit WatchRemove;;
    Cmd.modify (set_subscribed false)
  else mret tt.

Definition onMapReady : Cmd Component unit :=
  setState (State.set_isMapReady true).

(** The render helpers; [Some] is the element rendered, [None] is [null]. *)
Definition renderConfirmalButton (c : Component) : option string :=
  let showConfirmationButton := Props.showConfirmationButton (props c) in
  let destinationReached := State.destinationReached (state c) in
  if negb showConfirmationButton || negb destinationReached then None
  else Some "Confirm Arrival".

Definition renderNavigationButton (c : Component) : option string :=
  let showNavigationButton := Props.showNavigationButton (props c) in
  let destinationReached := State.destinationReached (state c) in
  let isNavigation := State.isNavigation (state c) in
  if destinationReached || isNavigation || negb showNavigationButton then None
  else Some "Start Navigation".

Definition renderMarker (c : Component) : option (option Coords) :=
  let isMapReady := State.isMapReady (state c) in
  let coordinates := State.coordinates (state c) in
  if negb isMapReady || bool_decide (length coordinates = 0%nat) then None
  else Some (last coordinates).

(** The marker of the simulated position: the coordinate it is drawn at. *)
Definition renderLocationMarker (c : Component) : option Coords :=
  if negb (fakeNavigation c) then None
  else
    let isMapReady := State.isMapReady (state c) in
    let isNavigation := State.isNavigation (state c) in
    let currentCoordinateIndex := State.currentCoordinateIndex (state c) in
    let coordinates := State.coordinates (state c) in
    if negb isMapReady || negb isNavigation
       || negb (bool_decide (is_Some (coordinates !! currentCoordinateIndex)))
    then None
    else coordinates !! currentCoordinateIndex.

(** The component is on screen: mounted and not yet unmounted. The
    framework delivers props and presses only then. *)
Definition onScreen (c : Component) : bool :=
  match mounting c with
  | NotMounted => false
  | _ => negb (cancelNavigation c)
  end.

(** One event, handled to the next await or to the end of the handler. *)
Definition step (e : Event) : Cmd Component unit :=
  c ← Cmd.get;
  match e with
  | DidMount =>
      match mounting c with
      | NotMounted => componentDidMount
      | _ => mret tt
      end
  | ProviderStatus enabled granted =>
      match mounting c with
      | AwaitProviderStatus p => componentDidMount_status p enabled granted
      | _ => mret tt
      end
  | PermissionAwaited =>
      match mounting c with
      | AwaitPermission p condition => componentDidMount_permission p condition
      | _ => mret tt
      end
  | MountLocation fromLib =>
      match mounting c with
      | AwaitLocation p resolved => componentDidMount_location p resolved fromLib
      | _ => mret tt
      end
  | Directions res =>
      match mounting c with
      | AwaitDirections p => componentDidMount_directions res
      | _ => mret tt
      end
  | WatchStarted =>
      match mounting c with
      | AwaitWatch => componentDidMount_watch
      | _ => mret tt
      end
  | Position coords =>
      if subscribed c then checkUserLocation coords else mret tt
  | MapReady =>
      if onScreen c then onMapReady else mret tt
  | PropsChanged p =>
      if onScreen c
      then Cmd.modify (set_props p);; componentDidUpdate (props c)
      else mret tt
  | PressStartNavigation =>
      if onScreen c && bool_decide (is_Some (renderNavigationButton c))
      then startNavigation else mret tt
  | StartLocation fromLib =>
      match starting c with
      | f :: rest =>
          Cmd.modify (set_starting rest);;
          startNavigation_resume fromLib f
      | [] => mret tt
      end
  | Wake =>
      match sleeping c with
      | S n => Cmd.modify (set_sleeping n);; simulateNavigation_resume
      | O => mret tt
      end
  | DevSetting fake => Cmd.modify (set_fakeNavigation fake)
  | WillUnmount =>
      if onScreen c then componentWillUnmount else mret tt
  end.

(** A sequence of events, in delivery order. *)
Fixpoint run (evs : list Event) : Cmd Component unit :=
  match evs with
  | [] => mret tt
  | e :: rest => step e;; run rest
  end.

Definition after (evs : list Event) (c : Component) : Component :=
  fst (Cmd.exec (run evs) c).

Definition effects (evs : list Event) (c : Component) : list Effect :=
  snd (Cmd.exec (run evs) c).

(** The component after one event. *)
Definition next (e : Event) (c : Component) : Component :=
  post (step e) c.

(** At most one playback iteration is asleep in [c] and in every
    component the events lead through. *)
Fixpoint singlePlayback (evs : list Event) (c : Component) : bool :=
  bool_decide (sleeping c ≤ 1)%nat
  && match evs with
     | [] => true
     | e :: rest => singlePlayback rest (next e c)
     end.

End code.

(** *** Vocabulary of the properties *)

(** The distance is a number of meters, at most 20. *)
Definition withinArrival (d : Distance) : Prop :=
  ∃ m : Z, d = Meters m ∧ (m ≤ 20)%Z.

(** The step is closer than 10 to [coords]. *)
Definition maneuverDue (getDistance : Coords → option Coords → Distance)
    (coords : Coords) (s : Step) : Prop :=
  ∃ m : Z, getDistance coords (Some (step_point s)) = Meters m ∧ (m < 10)%Z.

(** The loop of [animateNavigation] passes over the step: its distance is
    a number not below 10, or not a number. *)
Definition maneuverAhead (getDistance : Coords → option Coords → Distance)
    (coords : Coords) (s : Step) : Prop :=
  getDistance coords (Some (step_point s)) = NaN
  ∨ ∃ m : Z, getDistance coords (Some (step_point s)) = Meters m ∧ (10 ≤ m)%Z.

Definition cancelled (c : Component) : Prop := cancelNavigation c = true.

Definition reached (c : Component) : Prop :=
  State.destinationReached (state c) = true.

(** The state an unmounted component is left with: the flag of the unmount
    is up and [this.state] is [st]. *)
Definition frozenAt (st : State.t) (c : Component) : Prop :=
  cancelNavigation c = true ∧ state c = st.

(** Every call of the log but the sleep of the playback. *)
Definition noSleep (e : Effect) : Prop := e ≠ AsyncSleep 1500.


(** The claim that a call made within 20 meters of the end of the route
    sets the flag. *)
Definition arrivalFlagged (getDistance : Coords → option Coords → Distance)
    (coords : Coords) (c : Component) : Prop :=
  withinArrival (getDistance coords (last (State.coordinates (state c)))) →
  State.destinationReached
    (state (post (checkUserLocation getDistance coords) c)) = true.

(** The claim that a step closer than 10 to the coordinate received is no
    longer among the steps when the callback is through. *)
Definition dueStepsDropped (getDistance : Coords → option Coords → Distance)
    (coords : Coords) (c : Component) : Prop :=
  ∀ s : Step,
    s ∈ State.steps (state c) →
    maneuverDue getDistance coords s →
    s ∉ State.steps (state (post (checkUserLocation getDistance coords) c)).

(** The claim that from [c] on the playback neither updates the state nor
    asks for another sleep, whatever happens. *)
Definition playbackStopped (getDistance : Coords → option Coords → Distance)
    (c : Component) : Prop :=
  ∀ evs : list Event,
    state (after getDistance evs c) = state c
    ∧ AsyncSleep 1500 ∉ effects getDistance evs c.

(** The claim that the cursor is a valid index once there is a route. *)
Definition indexInBounds (c : Component) : Prop :=
  State.coordinates (state c) ≠ [] →
  (State.currentCoordinateIndex (state c)
   < length (State.coordinates (state c)))%nat.

(** What the bounds of the cursor depend on. *)
Definition cursor (c : Component)
  : list Coords * nat * nat * MountPhase * bool :=
  (State.coordinates (state c), State.currentCoordinateIndex (state c),
   sleeping c, mounting c, Props.pauseNavigation (props c)).

(** [componentDidMount] has not got to the route yet. *)
Definition routePending (m : MountPhase) : bool :=
  match m with
  | AwaitWatch | MountReturned => false
  | _ => true
  end.

(** The test that lets [simulateNavigation] go on to its sleep. *)
Definition scheduled (c : Component) : bool :=
  negb (Props.pauseNavigation (props c))
  && bool_decide (State.currentCoordinateIndex (state c)
                  < length (State.coordinates (state c)))%nat.

(** The invariant of a playback that never overlaps with another, on what
    [cursor] reads: the index is at most the length of the route, at most
    one iteration is asleep, an iteration asleep has a coordinate under
    the index, and there is no route before the mount sequence loads it. *)
Definition cursorGood (k : list Coords * nat * nat * MountPhase * bool) : Prop :=
  let '(coordinates, index, asleep, phase, _) := k in
  (index ≤ length coordinates)%nat
  ∧ (asleep ≤ 1)%nat
  ∧ (asleep = 1%nat → (index < length coordinates)%nat)
  ∧ (routePending phase = true → coordinates = []).

Definition cursorOk (c : Component) : Prop := cursorGood (cursor c).

End MapRoute.

(** ** Sample data *)

Module Samples.

(** A stand-in for the distance helper on whole-degree sample points: one
    meter per degree of latitude or longitude between the two points. *)
Definition gridDistance (a : Coords) (b : option Coords) : Distance :=
  match b with
  | None => Raise
  | Some b =>
      match latitude a, longitude a, latitude b, longitude b with
      | Some la, Some lo, Some lb, Some lob =>
          Meters (Z.abs (Qfloor (la - lb)) + Z.abs (Qfloor (lo - lob)))
      | _, _, _, _ => NaN
      end
  end.

Definition point (lat lng : Z) : Coords :=
  mkCoords (Some (inject_Z lat)) (Some (inject_Z lng)).

Definition maneuver (lat lng bearing : Z) : Step :=
  mkStep (Some (inject_Z lat)) (Some (inject_Z lng)) (Some (inject_Z bearing)).

Definition props : Props.t :=
  Props.mk true true true false false
    (Some 100%Q) (Some 100%Q) None None "gps" false.

Definition paused : Props.t :=
  Props.mk true true true false true
    (Some 100%Q) (Some 100%Q) None None "gps" false.

(** A route of four points ending at the destination of [props], with a
    maneuver at each of the two inner points. Points of the response are
    [[longitude, latitude]]. *)
Definition response : MapRoute.DirectionsResponse :=
  MapRoute.mkDirectionsResponse
    [ (Some 0%Q, Some 0%Q); (Some 100%Q, Some 0%Q);
      (Some 100%Q, Some 50%Q); (Some 100%Q, Some 100%Q) ]
    [ MapRoute.mkManeuver (Some 100%Q, Some 0%Q) (Some 0%Q);
      MapRoute.mkManeuver (Some 100%Q, Some 50%Q) (Some 90%Q) ].

Definition fresh (fake : bool) : MapRoute.Component :=
  MapRoute.constructor 360 640 props fake.

(** The mount sequence when the permission helper answers with a plain
    [true]: the route is loaded and the position is watched. *)
Definition mountEvents : list MapRoute.Event :=
  [ MapRoute.DidMount;
    MapRoute.ProviderStatus true (Js.Now true);
    MapRoute.PermissionAwaited;
    MapRoute.MountLocation (point 0 0);
    MapRoute.Directions response;
    MapRoute.WatchStarted ].

Definition mounted (fake : bool) : MapRoute.Component :=
  MapRoute.after gridDistance mountEvents (fresh fake).

(** The simulated playback of the sample route, started from the button. *)
Definition playback : list MapRoute.Event :=
  mountEvents
  ++ [ MapRoute.MapReady; MapRoute.PressStartNavigation; MapRoute.StartLocation (point 0 0);
       MapRoute.Wake; MapRoute.Wake; MapRoute.Wake; MapRoute.Wake ].

Definition allChecked : gmap string bool :=
  list_to_map [
    ("rearChecked", true);
    ("driverChecked", true);
    ("frontChecked", true);
    ("codriverChecked", true);
    ("issueModalVisible", false)
  ].

(** Props that start the navigation. *)
Definition navigate : Props.t :=
  Props.mk true true true true false
    (Some 100%Q) (Some 100%Q) None None "gps" false.

(** Props that ask for no directions. *)
Definition noDirections : Props.t :=
  Props.mk false true true false false
    (Some 100%Q) (Some 100%Q) None None "gps" false.

(** A helper that raises where [gridDistance] has no number to give. *)
Definition strictDistance (a : Coords) (b : option Coords) : Distance :=
  match gridDistance a b with
  | NaN => Raise
  | d => d
  end.

(** A step without a latitude. *)
Definition brokenManeuver : Step := mkStep None (Some 100%Q) (Some 0%Q).

(** The sample component with its route loaded and a position watch that
    has been asked for but has not answered yet. *)
Definition watchPending : MapRoute.Component :=
  MapRoute.after gridDistance
    [ MapRoute.DidMount;
      MapRoute.ProviderStatus true (Js.Now true);
      MapRoute.PermissionAwaited;
      MapRoute.MountLocation (point 0 0);
      MapRoute.Directions response ]
    (fresh false).

(** The sample component in a simulated playback that has just started. *)
Definition playing : MapRoute.Component :=
  MapRoute.after gridDistance
    [ MapRoute.MapReady; MapRoute.PressStartNavigation;
      MapRoute.StartLocation (point 0 0) ]
    (mounted true).

(** The sample component unmounted while its position watch was still
    pending; the subscription has come in since. *)
Definition leakedWatch : MapRoute.Component :=
  MapRoute.after gridDistance
    [ MapRoute.WillUnmount; MapRoute.WatchStarted ] watchPending.

(** The sample component unmounted while a [startNavigation] made by the
    button waits for [lib.getLocation]. *)
Definition startPending : MapRoute.Component :=
  MapRoute.after gridDistance
    (mountEvents ++ [ MapRoute.PressStartNavigation; MapRoute.WillUnmount ])
    (fresh true).

(** A route whose two maneuvers lie ten meters from each other. *)
Definition tightResponse : MapRoute.DirectionsResponse :=
  MapRoute.mkDirectionsResponse
    [ (Some 0%Q, Some 0%Q); (Some 100%Q, Some 0%Q);
      (Some 105%Q, Some 5%Q); (Some 100%Q, Some 100%Q) ]
    [ MapRoute.mkManeuver (Some 100%Q, Some 0%Q) (Some 0%Q);
      MapRoute.mkManeuver (Some 105%Q, Some 5%Q) (Some 90%Q) ].

(** The component mounted on that route, on screen, its navigation started
    from the button. *)
Definition tightNavigation : MapRoute.Component :=
  MapRoute.after gridDistance
    [ MapRoute.DidMount;
      MapRoute.ProviderStatus true (Js.Now true);
      MapRoute.PermissionAwaited;
      MapRoute.MountLocation (point 0 0);
      MapRoute.Directions tightResponse;
      MapRoute.WatchStarted;
      MapRoute.MapReady;
      MapRoute.PressStartNavigation;
      MapRoute.StartLocation (point 0 0) ]
    (fresh false).

End Samples.

(** ** Vocabulary of the properties of whole runs *)

(** The steps [m] leaves are steps it found, in their order. *)
Definition stepsShrink {A} (m : Cmd MapRoute.Component A) : Prop :=
  ∀ c, State.steps (MapRoute.state (post m c))
       `sublist_of` State.steps (MapRoute.state c).

(** How many wake-ups of the playback there are among the events. *)
Fixpoint wakes (evs : list MapRoute.Event) : nat :=
  match evs with
  | [] => 0
  | MapRoute.Wake :: rest => S (wakes rest)
  | _ :: rest => wakes rest
  end.

(** The component has no route and no position watch, the mount sequence
    is over, and no arrival has been flagged. *)
Definition routeless (c : MapRoute.Component) : Prop :=
  MapRoute.mounting c = MapRoute.MountReturned
  ∧ State.coordinates (MapRoute.state c) = []
  ∧ MapRoute.subscribed c = false
  ∧ State.destinationReached (MapRoute.state c) = false.

(** The zoom of the focused region. *)
Definition zoom (c : MapRoute.Component) : Q * Q :=
  (latitudeDelta (State.focusedLocation (MapRoute.state c)),
   longitudeDelta (State.focusedLocation (MapRoute.state c))).


(** ** Tactics *)

(** Rules by which a command keeps a predicate are collected here; the
    proof search runs through a command rule by rule. *)
Create HintDb preserve.

(** The same for [stepsShrink]. *)
Create HintDb shrink.

(** The rules for [keeps] on a component that has been unmounted. *)
Create HintDb frozen.

Ltac preserve := eauto 200 with preserve nocore.

Ltac cmd_unfold :=
  unfold MapRoute.step, MapRoute.componentDidMount,
    MapRoute.componentDidMount_status, MapRoute.componentDidMount_permission,
    MapRoute.componentDidMount_location, MapRoute.componentDidMount_directions,
    MapRoute.componentDidMount_watch, MapRoute.componentDidUpdate,
    MapRoute.componentWillUnmount, MapRoute.onMapReady,
    MapRoute.startNavigation, MapRoute.startNavigation_call,
    MapRoute.startNavigation_resume,
    MapRoute.simulateNavigation, MapRoute.simulateNavigation_resume,
    MapRoute.checkUserLocation, MapRoute.animateNavigation,
    MapRoute.animateToCoordinates, MapRoute.getDirections,
    MapRoute.getDirections_resume, MapRoute.focusOnCoords,
    MapRoute.getLocation.

Ltac cmd_glue :=
  unfold MapRoute.setState;
  unfold mbind, Cmd_bind, Cmd.bind, mret, Cmd_ret, Cmd.ret, Cmd.get, Cmd.gets,
    Cmd.modify, Cmd.emit, Cmd.when, Cmd.exec, post.

(** * Properties *)

(** ** Commands *)

Section preservation.
Context {S : Type} (P : S → Prop).

Lemma post_bind {A B} (m : Cmd S A) (k : A → Cmd S B) s :
  post (Cmd.bind m k) s = post (k (m s).1.1) (post m s).
Proof.
  unfold post, Cmd.bind. destruct (m s) as [[a s1] l1]; simpl.
  destruct (k a s1) as [[b s2] l2]; reflexivity.
Qed.

Lemma preserves_ret {A} (a : A) : preserves P (Cmd.ret a).
Proof. intros s Hs; exact Hs. Qed.

Lemma preserves_bind {A B} (m : Cmd S A) (k : A → Cmd S B) :
  preserves P m → (∀ a, preserves P (k a)) → preserves P (Cmd.bind m k).
Proof. intros Hm Hk s Hs. rewrite post_bind. apply Hk, Hm, Hs. Qed.

Lemma preserves_get : preserves P Cmd.get.
Proof. intros s Hs; exact Hs. Qed.

Lemma preserves_gets {A} (f : S → A) : preserves P (Cmd.gets f).
Proof. intros s Hs; exact Hs. Qed.

Lemma preserves_emit e : preserves P (Cmd.emit e).
Proof. intros s Hs; exact Hs. Qed.

Lemma preserves_modify (f : S → S) :
  (∀ s, P s → P (f s)) → preserves P (Cmd.modify f).
Proof. intros Hf s Hs. apply Hf, Hs. Qed.

Lemma preserves_when b (m : Cmd S unit) :
  preserves P m → preserves P (Cmd.when b m).
Proof. intros Hm. destruct b; [exact Hm | apply preserves_ret]. Qed.
End preservation.

Section keeping.
Context {S : Type} (P : S → Prop) (Q : Effect → Prop).

Lemma keeps_ret {A} (a : A) : keeps P Q (Cmd.ret a).
Proof. intros s Hs. split; [exact Hs | constructor]. Qed.

Lemma keeps_bind {A B} (m : Cmd S A) (k : A → Cmd S B) :
  keeps P Q m → (∀ a, keeps P Q (k a)) → keeps P Q (Cmd.bind m k).
Proof.
  intros Hm Hk s Hs. destruct (Hm s Hs) as [Hp Hl].
  unfold post, Cmd.bind in *. destruct (m s) as [[a s1] l1]; simpl in *.
  destruct (Hk a s1 Hp) as [Hp' Hl']. unfold post in *.
  destruct (k a s1) as [[b s2] l2]; simpl in *.
  split; [exact Hp' | by apply Forall_app].
Qed.

(** What follows a read of the component is run on the component read. *)
Lemma keeps_get_bind {A} (k : S → Cmd S A) :
  (∀ s, P s → keeps P Q (k s)) → keeps P Q (Cmd.bind Cmd.get k).
Proof.
  intros Hk s Hs. destruct (Hk s Hs s Hs) as [Hp Hl].
  unfold post, Cmd.bind, Cmd.get in *; simpl.
  destruct (k s s) as [[b s2] l2]; simpl in *. by split.
Qed.

Lemma keeps_gets {A} (f : S → A) : keeps P Q (Cmd.gets f).
Proof. intros s Hs. split; [exact Hs | constructor]. Qed.

Lemma keeps_emit e : Q e → keeps P Q (Cmd.emit e).
Proof. intros He s Hs. split; [exact Hs | by repeat constructor]. Qed.

Lemma keeps_modify (f : S → S) :
  (∀ s, P s → P (f s)) → keeps P Q (Cmd.modify f).
Proof. intros Hf s Hs. split; [apply Hf, Hs | constructor]. Qed.

Lemma keeps_when b (m : Cmd S unit) :
  keeps P Q m → keeps P Q (Cmd.when b m).
Proof. intros Hm. destruct b; [exact Hm | apply keeps_ret]. Qed.
End keeping.

#[global] Hint Resolve preserves_ret preserves_get preserves_gets
  preserves_emit preserves_when preserves_bind : preserve.
(* a [modify] of the component is discharged field by field *)
#[global] Hint Extern 2 (preserves _ (Cmd.modify _)) =>
  apply preserves_modify;
  intros [? [] ? ? ? ? ? ? ?]; simpl; solve [ auto ] : preserve.
#[global] Hint Extern 3 (preserves _ (match ?x with _ => _ end)) =>
  destruct x : preserve.
#[global] Hint Extern 3 (preserves _ (from_option _ _ ?x)) =>
  destruct x; simpl : preserve.
#[global] Hint Extern 4 (preserves _ _) =>
  progress unfold mbind, Cmd_bind, mret, Cmd_ret, MapRoute.setState : preserve.
#[global] Hint Extern 4 (preserves _ _) => progress cbv zeta : preserve.


(** ** The exterior-check screen *)

Module ExteriorCheckFacts.
Import ExteriorCheckScreen.

Lemma truthy_land (a b : option bool) :
  Js.truthy (Js.land a b) = Js.truthy a && Js.truthy b.
Proof. unfold Js.land. destruct a as [[]|]; reflexivity. Qed.

Lemma truthy_true (v : option bool) : Js.truthy v = true ↔ v = Some true.
Proof. destruct v as [[]|]; simpl; split; congruence. Qed.

Lemma itemsChecked_truthy (st : State) :
  Js.truthy (itemsChecked st) = true ↔ allFour st.
Proof.
  unfold itemsChecked, allFour.
  rewrite !truthy_land, !andb_true_iff, !truthy_true. tauto.
Qed.

(** C2. In every state of the screen the open-car button is enabled
    exactly when the four checklist flags are all true. When they are not,
    the button's [disabled] prop is set and [onPressOpenCar] returns having
    done nothing; when they are, [onPressOpenCar] raises the confirmation
    alert whose OK button navigates to the interior check. *)
Theorem openCar_enabled_iff_all_checked (st : State) :
  (open_disabled (view_openCar (render st)) = false ↔ allFour st)
  ∧ (open_disabled (view_openCar (render st)) = true ↔ ¬ allFour st)
  ∧ (¬ allFour st ↔ onPressOpenCar st = (tt, st, []))
  ∧ (allFour st ↔
     onPressOpenCar st =
       (tt, st,
        [ AlertAlert "Confirmation Request" confirmationMessage
            [ mkAlertButton "Cancel" (Some "cancel") None;
              mkAlertButton "OK" None (Some "InteriorCheck") ] ])).
Proof.
  pose proof (itemsChecked_truthy st) as Hall.
  unfold onPressOpenCar, render, Js.lnot, mbind, Cmd_bind, Cmd.bind, Cmd.get,
    Cmd.emit, mret, Cmd_ret, Cmd.ret; simpl.
  destruct (Js.truthy (itemsChecked st)); simpl.
  - assert (allFour st) by (apply Hall; reflexivity).
    split; [|split; [|split]]; split; intros; try tauto; discriminate.
  - assert (¬ allFour st) by (intros Hc; apply Hall in Hc; discriminate).
    split; [|split; [|split]]; split; intros; try tauto; discriminate.
Qed.

(** C5. [toggleCheckbox id] negates the flag stored under [id] and leaves
    every other field of the state as it was (the other checked flags and
    [issueModalVisible] among them); it adds no field and does nothing
    outside the state. *)
Theorem toggleCheckbox_flips_exactly (id : string) (st : State) (b : bool) :
  st !! id = Some b →
  ∃ st' : State,
    toggleCheckbox id st = (tt, st', [])
    ∧ st' !! id = Some (negb b)
    ∧ (∀ k : string, k ≠ id → st' !! k = st !! k)
    ∧ dom st' = dom st.
Proof.
  intros Hb. eexists. split; [reflexivity|].
  rewrite Hb. unfold Js.lnot; simpl.
  split; [|split].
  - rewrite lookup_union_l'; [apply lookup_singleton_eq|].
    rewrite lookup_singleton_eq. eauto.
  - intros k Hk. rewrite lookup_union_r; [done|].
    by rewrite lookup_singleton_ne.
  - rewrite dom_union_L, dom_singleton_L.
    apply subseteq_union_1_L, singleton_subseteq_l, elem_of_dom. eauto.
Qed.

Lemma toggleCheckbox_flips_exactly_witness :
  initialState !! "frontChecked" = Some false
  ∧ ∃ st' : State,
      toggleCheckbox "frontChecked" initialState = (tt, st', [])
      ∧ st' !! "frontChecked" = Some (negb false)
      ∧ (∀ k : string, k ≠ "frontChecked" → st' !! k = initialState !! k)
      ∧ dom st' = dom initialState.
Proof.
  split; [reflexivity|].
  apply (toggleCheckbox_flips_exactly "frontChecked" initialState false).
  reflexivity.
Defined.

(** The flag under a key that is not in the state reads [undefined], and
    toggling it stores [true]. *)
Lemma toggleCheckbox_undefined (id : string) (st : State) :
  st !! id = None →
  (Cmd.exec (toggleCheckbox id) st).1 !! id = Some true.
Proof.
  intros Hn. unfold toggleCheckbox; simpl. rewrite Hn. simpl.
  rewrite lookup_union_l'; [apply lookup_singleton_eq|].
  rewrite lookup_singleton_eq. eauto.
Qed.

(** The five fields the constructor puts in the state are there in every
    state the handlers of the screen lead to. *)
Lemma handlers_keep_fields (st : State) (m : Cmd State unit) :
  (m = showIssueModal ∨ m = hideIssueModal ∨ ∃ id, m = toggleCheckbox id) →
  dom initialState ⊆ dom st →
  dom initialState ⊆ dom (post m st).
Proof.
  intros Hm Hdom.
  assert (Hsub : dom st ⊆ dom (post m st)).
  { destruct Hm as [-> | [-> | [id ->]]]; unfold post; simpl;
      rewrite dom_union; apply union_subseteq_r. }
  by etrans.
Qed.

Example openCar_initially_disabled :
  open_disabled (view_openCar (render initialState)) = true
  ∧ onPressOpenCar initialState = (tt, initialState, []).
Proof. split; reflexivity. Qed.

Example openCar_enabled_when_all_checked :
  open_disabled (view_openCar (render Samples.allChecked)) = false.
Proof. reflexivity. Qed.

End ExteriorCheckFacts.

(** ** The app shell *)

Module AppFacts.
Import App.

(** C9. The loading-error handler writes one console warning, whose
    argument is the error it was given, and does nothing else: the
    component is left as it was and no other call is made. *)
Theorem handleLoadingError_warns_once {E : Type} (error : E) (app : App) :
  _handleLoadingError error app = (tt, app, [ConsoleWarn error]).
Proof. reflexivity. Qed.

(** C10. The finish handler sets [isLoadingComplete] to true and sets
    [initialRoute] to 'Main' when the user store reads as authenticated and
    to 'Auth' otherwise. *)
Theorem handleFinishLoading_route (authenticated : option bool) (app : App) :
  _handleFinishLoading authenticated app =
    (tt,
     mkApp true (if Js.truthy authenticated then "Main" else "Auth"),
     []).
Proof. reflexivity. Qed.

Example finishLoading_authenticated :
  (Cmd.exec (_handleFinishLoading (Some true)) initial).1 = mkApp true "Main".
Proof. reflexivity. Qed.

Example finishLoading_anonymous :
  (Cmd.exec (_handleFinishLoading (Some false)) initial).1 = mkApp true "Auth"
  ∧ (Cmd.exec (_handleFinishLoading None) initial).1 = mkApp true "Auth".
Proof. split; reflexivity. Qed.

Lemma finishLoading_leaves_loading_screen (authenticated skip : option bool)
    (app : App) :
  rendersLoading skip (Cmd.exec (_handleFinishLoading authenticated) app).1
  = false.
Proof. reflexivity. Qed.

End AppFacts.

(** ** The map-route view *)

Module MapRouteFacts.
Import MapRoute.

Lemma onScreen_cancelled c : cancelNavigation c = true → onScreen c = false.
Proof. intros H. unfold onScreen. rewrite H. by destruct (mounting c). Qed.

#[global] Hint Resolve keeps_ret keeps_gets keeps_when : frozen.
#[global] Hint Extern 1 (keeps _ _ (Cmd.bind ?m _)) =>
  lazymatch m with
  | Cmd.get => apply keeps_get_bind; intros ? [? ?]; cbv beta
  | _ => apply keeps_bind
  end : frozen.
#[global] Hint Extern 1 (keeps _ _ (if cancelNavigation ?c then _ else _)) =>
  match goal with H : cancelNavigation c = true |- _ => rewrite H end : frozen.
#[global] Hint Extern 1 (keeps _ _ _) =>
  match goal with
  | H : cancelNavigation ?c = true |- context [onScreen ?c] =>
      rewrite (onScreen_cancelled c H); simpl
  end : frozen.
#[global] Hint Extern 2 (keeps _ _ (Cmd.emit _)) =>
  apply keeps_emit; first [exact I | unfold noSleep; discriminate] : frozen.
#[global] Hint Extern 2 (keeps _ _ (Cmd.modify _)) =>
  apply keeps_modify; intros [? ? ? ? ? ? ? ? ?] [? ?]; simpl in *;
  split; [first [assumption | reflexivity] | assumption] : frozen.
#[global] Hint Extern 3 (keeps _ _ (match ?x with _ => _ end)) =>
  destruct x : frozen.
#[global] Hint Extern 3 (keeps _ _ (from_option _ _ ?x)) =>
  destruct x; simpl : frozen.
#[global] Hint Extern 4 (keeps _ _ _) =>
  progress unfold mbind, Cmd_bind, mret, Cmd_ret, MapRoute.setState : frozen.
#[global] Hint Extern 4 (keeps _ _ _) => progress cbv zeta : frozen.

Section facts.
Context (getDistance : Coords → option Coords → Distance).

Lemma after_nil c : after getDistance [] c = c.
Proof. reflexivity. Qed.

Lemma after_cons e evs c :
  after getDistance (e :: evs) c
  = after getDistance evs (next getDistance e c).
Proof.
  unfold after, next, post, Cmd.exec; simpl.
  unfold mbind, Cmd_bind, Cmd.bind.
  destruct (step getDistance e c) as [[[] c1] l1]; simpl.
  destruct (run getDistance evs c1) as [[[] c2] l2]; reflexivity.
Qed.

Lemma after_app evs1 evs2 c :
  after getDistance (evs1 ++ evs2) c =
    after getDistance evs2 (after getDistance evs1 c).
Proof.
  revert c. induction evs1 as [|e evs1 IH]; intros c; [reflexivity|].
  simpl. rewrite !after_cons. apply IH.
Qed.

Lemma step_keeps_cancelled e : preserves cancelled (step getDistance e).
Proof. unfold cancelled. destruct e; cmd_unfold; preserve. Qed.

Lemma step_keeps_reached e : preserves reached (step getDistance e).
Proof. unfold reached. destruct e; cmd_unfold; preserve. Qed.

Lemma after_keeps_cancelled evs c :
  cancelled c → cancelled (after getDistance evs c).
Proof.
  revert c. induction evs as [|e evs IH]; intros c Hc; [exact Hc|].
  rewrite after_cons. apply IH, step_keeps_cancelled, Hc.
Qed.

Lemma checkUserLocation_cursor coords k :
  preserves (λ c, cursor c = k) (checkUserLocation getDistance coords).
Proof. cmd_unfold; preserve. Qed.

Lemma animateNavigation_cursor coords k :
  preserves (λ c, cursor c = k) (animateNavigation getDistance coords).
Proof. cmd_unfold; preserve. Qed.

Lemma startNavigation_cursor k :
  preserves (λ c, cursor c = k) startNavigation.
Proof. cmd_unfold; preserve. Qed.

Lemma simulateNavigation_cursor c :
  cursor (post (simulateNavigation getDistance) c) =
    (State.coordinates (state c), State.currentCoordinateIndex (state c),
     if scheduled c then S (sleeping c) else sleeping c,
     mounting c, Props.pauseNavigation (props c)).
Proof.
  unfold simulateNavigation, mbind, Cmd_bind. rewrite post_bind. simpl.
  unfold post at 2; simpl. fold (scheduled c).
  destruct (scheduled c); [|reflexivity].
  rewrite !post_bind.
  set (m := from_option _ _ _).
  assert (Hm : cursor (post m c) = cursor c).
  { subst m. destruct (_ !! _); [|reflexivity].
    by apply checkUserLocation_cursor. }
  unfold post at 1 2; simpl. unfold cursor in *; simpl. congruence.
Qed.

Lemma post_get_bind {A} (k : Component → Cmd Component A) c :
  post (Cmd.bind Cmd.get k) c = post (k c) c.
Proof. rewrite post_bind. reflexivity. Qed.

Lemma next_body e c :
  next getDistance e c =
    post (match e with
          | DidMount =>
              match mounting c with
              | NotMounted => componentDidMount
              | _ => mret tt
              end
          | ProviderStatus enabled granted =>
              match mounting c with
              | AwaitProviderStatus p => componentDidMount_status p enabled granted
              | _ => mret tt
              end
          | PermissionAwaited =>
              match mounting c with
              | AwaitPermission p condition =>
                  componentDidMount_permission p condition
              | _ => mret tt
              end
          | MountLocation fromLib =>
              match mounting c with
              | AwaitLocation p resolved =>
                  componentDidMount_location p resolved fromLib
              | _ => mret tt
              end
          | Directions res =>
              match mounting c with
              | AwaitDirections p => componentDidMount_directions res
              | _ => mret tt
              end
          | WatchStarted =>
              match mounting c with
              | AwaitWatch => componentDidMount_watch
              | _ => mret tt
              end
          | Position coords =>
              if subscribed c then checkUserLocation getDistance coords
              else mret tt
          | MapReady => if onScreen c then onMapReady else mret tt
          | PropsChanged p =>
              if onScreen c
              then Cmd.modify (set_props p);;
                   componentDidUpdate getDistance (props c)
              else mret tt
          | PressStartNavigation =>
              if onScreen c && bool_decide (is_Some (renderNavigationButton c))
              then startNavigation else mret tt
          | StartLocation fromLib =>
              match starting c with
              | f :: rest =>
                  Cmd.modify (set_starting rest);;
                  startNavigation_resume getDistance fromLib f
              | [] => mret tt
              end
          | Wake =>
              match sleeping c with
              | S n =>
                  Cmd.modify (set_sleeping n);;
                  simulateNavigation_resume getDistance
              | O => mret tt
              end
          | DevSetting fake => Cmd.modify (set_fakeNavigation fake)
          | WillUnmount =>
              if onScreen c then componentWillUnmount else mret tt
          end) c.
Proof. unfold next, step, mbind, Cmd_bind. apply post_get_bind. Qed.

(** Handlers that only move the mount sequence along or touch fields the
    cursor bounds do not read. *)
Lemma light_keeps_cursorOk e c :
  match e with
  | Directions _ | PropsChanged _ | StartLocation _ | Wake
  | Position _ | PressStartNavigation => False
  | _ => True
  end →
  cursorOk c → cursorOk (next getDistance e c).
Proof.
  intros He Hc. destruct c as [p [cs ss i f d m nav] cn w fk sb mo st sl].
  unfold cursorOk, cursor, cursorGood in *; simpl in *.
  destruct e; try done; clear He; rewrite next_body; simpl.
  all: repeat (case_match; try done; cmd_unfold; cmd_glue; simplify_eq/=).
  all: intuition (try discriminate; auto).
Qed.

Lemma when_cursor {k} b (m : Cmd Component unit) :
  preserves (λ c, cursor c = k) m →
  preserves (λ c, cursor c = k) (Cmd.when b m).
Proof. apply preserves_when. Qed.

(** [simulateNavigation] adds a sleeping iteration only when there is a
    coordinate under the index, and moves nothing else the bounds
    depend on. *)
Lemma simulateNavigation_adds c :
  ∃ k : nat,
    cursor (post (simulateNavigation getDistance) c) =
      (State.coordinates (state c), State.currentCoordinateIndex (state c),
       (sleeping c + k)%nat, mounting c, Props.pauseNavigation (props c))
    ∧ (k = 0%nat
       ∨ k = 1%nat
         ∧ (State.currentCoordinateIndex (state c)
            < length (State.coordinates (state c)))%nat).
Proof.
  rewrite simulateNavigation_cursor. unfold scheduled.
  destruct (negb _ && bool_decide _) eqn:Hb.
  - apply andb_prop in Hb as [_ Hlt]. apply bool_decide_eq_true in Hlt.
    exists 1%nat. rewrite Nat.add_1_r. auto.
  - exists 0%nat. rewrite Nat.add_0_r. auto.
Qed.

Lemma when_simulateNavigation_adds b c :
  ∃ k : nat,
    cursor (post (Cmd.when b (simulateNavigation getDistance)) c) =
      (State.coordinates (state c), State.currentCoordinateIndex (state c),
       (sleeping c + k)%nat, mounting c, Props.pauseNavigation (props c))
    ∧ (k = 0%nat
       ∨ k = 1%nat
         ∧ (State.currentCoordinateIndex (state c)
            < length (State.coordinates (state c)))%nat).
Proof.
  destruct b; [apply simulateNavigation_adds|].
  exists 0%nat. rewrite Nat.add_0_r. auto.
Qed.

Lemma startNavigation_call_cursor k :
  preserves (λ c, cursor c = k) startNavigation_call.
Proof. cmd_unfold; preserve. Qed.

Lemma setState_isNavigation_cursor k :
  preserves (λ c, cursor c = k) (setState (State.set_isNavigation true)).
Proof. preserve. Qed.

Lemma cursor_PropsChanged p c :
  ∃ (pause : bool) (k : nat),
    cursor (next getDistance (PropsChanged p) c) =
      (State.coordinates (state c), State.currentCoordinateIndex (state c),
       (sleeping c + k)%nat, mounting c, pause)
    ∧ (k = 0%nat
       ∨ k = 1%nat
         ∧ (State.currentCoordinateIndex (state c)
            < length (State.coordinates (state c)))%nat).
Proof.
  rewrite next_body. destruct (onScreen c).
  2: { exists (Props.pauseNavigation (props c)), 0%nat.
       rewrite Nat.add_0_r. auto. }
  unfold mbind, Cmd_bind. rewrite post_bind.
  change (post (Cmd.modify (set_props p)) c) with (set_props p c).
  cbv beta. set (c0 := set_props p c).
  unfold componentDidUpdate, mbind, Cmd_bind.
  rewrite post_bind. change (post (Cmd.gets props) c0) with c0. cbv beta.
  rewrite !post_bind. cbv beta.
  set (c1 := post (Cmd.when _ startNavigation_call) c0).
  assert (H1 : cursor c1 = cursor c0).
  { subst c1. by apply when_cursor; [apply startNavigation_call_cursor|]. }
  destruct (when_simulateNavigation_adds
              (negb (Props.pauseNavigation (Cmd.gets props c0).1.1)
               && negb (eqb (Props.pauseNavigation (Cmd.gets props c0).1.1)
                          (Props.pauseNavigation (props c)))) c1)
    as (k & Hk & Hlt).
  unfold cursor in H1; simpl in H1. injection H1 as Hcs Hidx Hsl Hmo Hpa.
  rewrite Hcs, Hidx, Hsl, Hmo, Hpa in Hk. rewrite Hcs, Hidx in Hlt.
  exists (Props.pauseNavigation p), k. split; [|exact Hlt].
  rewrite <- Hk.
  by apply when_cursor; [apply setState_isNavigation_cursor|].
Qed.

Lemma cursor_StartLocation fromLib c :
  ∃ k : nat,
    cursor (next getDistance (StartLocation fromLib) c) =
      (State.coordinates (state c), State.currentCoordinateIndex (state c),
       (sleeping c + k)%nat, mounting c, Props.pauseNavigation (props c))
    ∧ (k = 0%nat
       ∨ k = 1%nat
         ∧ (State.currentCoordinateIndex (state c)
            < length (State.coordinates (state c)))%nat).
Proof.
  rewrite next_body. destruct (starting c) as [|f rest] eqn:Hst.
  { exists 0%nat. rewrite Nat.add_0_r. auto. }
  unfold mbind, Cmd_bind. rewrite post_bind.
  change (post (Cmd.modify (set_starting rest)) c) with (set_starting rest c).
  cbv beta. set (c0 := set_starting rest c).
  unfold startNavigation_resume, mbind, Cmd_bind.
  rewrite !post_bind. cbv beta.
  set (c1 := post (animateNavigation getDistance _) c0).
  assert (H1 : cursor c1 = cursor c).
  { subst c1. by rewrite (animateNavigation_cursor _ (cursor c0) c0 eq_refl). }
  set (c2 := post (Cmd.when _ (Cmd.emit _)) c1).
  assert (H2 : c2 = c1)
    by (subst c2; by destruct (frame_trackNavigationEvent f)).
  change (post (Cmd.gets fakeNavigation) c2) with c2.
  destruct (when_simulateNavigation_adds
              (Cmd.gets fakeNavigation c2).1.1 c2) as (k & Hk & Hlt).
  rewrite H2 in Hk, Hlt |- *.
  unfold cursor in H1; simpl in H1. injection H1 as Hcs Hidx Hsl Hmo Hpa.
  rewrite Hcs, Hidx, Hsl, Hmo, Hpa in Hk. rewrite Hcs, Hidx in Hlt.
  exists k. split; [exact Hk | exact Hlt].
Qed.

Lemma post_setState_mounted f c :
  cancelNavigation c = false → post (setState f) c = set_state f c.
Proof. intros H. unfold post; cmd_glue; simpl. by rewrite H. Qed.

Lemma setState_unmounted f c :
  cancelNavigation c = true → setState f c = (tt, c, []).
Proof. intros H. cmd_glue; simpl. by rewrite H. Qed.

(** A wake-up after the unmount changes nothing but the count of
    sleepers. *)
Lemma wake_cancelled c n :
  sleeping c = S n → cancelNavigation c = true →
  step getDistance Wake c = (tt, set_sleeping n c, []).
Proof.
  intros Hsl Hcn. unfold step; cmd_glue; simpl. rewrite Hsl.
  unfold simulateNavigation_resume; cmd_glue; simpl. rewrite Hcn.
  reflexivity.
Qed.

Lemma cursor_Wake c n :
  sleeping c = S n →
  cursor (next getDistance Wake c) =
    (State.coordinates (state c), State.currentCoordinateIndex (state c),
     n, mounting c, Props.pauseNavigation (props c))
  ∨ ∃ k : nat,
      cursor (next getDistance Wake c) =
        (State.coordinates (state c),
         S (State.currentCoordinateIndex (state c)),
         (n + k)%nat, mounting c, Props.pauseNavigation (props c))
      ∧ (k = 0%nat
         ∨ k = 1%nat
           ∧ (S (State.currentCoordinateIndex (state c))
              < length (State.coordinates (state c)))%nat).
Proof.
  intros Hsl. destruct (cancelNavigation c) eqn:Hcn.
  { left. unfold next, post. by rewrite (wake_cancelled c n). }
  right. rewrite next_body, Hsl.
  unfold mbind, Cmd_bind. rewrite post_bind.
  change (post (Cmd.modify (set_sleeping n)) c) with (set_sleeping n c).
  cbv beta. set (c0 := set_sleeping n c).
  unfold simulateNavigation_resume, mbind, Cmd_bind.
  rewrite post_get_bind.
  change (cancelNavigation c0) with (cancelNavigation c). rewrite Hcn.
  rewrite post_bind. cbv beta.
  rewrite post_setState_mounted by done.
  set (c1 := set_state _ c0).
  destruct (simulateNavigation_adds c1) as (k & Hk & Hlt).
  subst c1 c0. simpl in Hk, Hlt. rewrite Nat.add_1_r in Hk, Hlt.
  exists k. split; [exact Hk | exact Hlt].
Qed.

Lemma next_keeps_cursorOk e c :
  cursorOk c → (sleeping (next getDistance e c) ≤ 1)%nat →
  cursorOk (next getDistance e c).
Proof.
  intros Hc.
  destruct e; try (intros _; apply light_keeps_cursorOk; [exact I | exact Hc]).
  - (* Directions *)
    intros _. rewrite next_body.
    destruct c as [p [cs ss i f d m nav] cn w fk sb mo st sl].
    unfold cursorOk, cursor, cursorGood in *; simpl in *.
    destruct mo; try exact Hc.
    cmd_unfold; cmd_glue; simpl.
    destruct Hc as (Hi & Hs & Hp & Hr). rewrite (Hr eq_refl) in *.
    destruct cn; simpl in *; repeat split; try lia; try discriminate.
  - (* Position *)
    intros _. rewrite next_body. destruct (subscribed c); [|exact Hc].
    unfold cursorOk.
    by rewrite (checkUserLocation_cursor coords (cursor c) c eq_refl).
  - (* PropsChanged *)
    destruct (cursor_PropsChanged p c) as (pa & k & Hk & Hlt).
    unfold cursorOk in *. revert Hk Hc. unfold cursor at 1 3.
    intros Hk. injection Hk as Hk1 Hk2 Hk3 Hk4 Hk5.
    unfold cursor. rewrite Hk1, Hk2, Hk3, Hk4. simpl. intuition lia.
  - (* PressStartNavigation *)
    intros _. rewrite next_body. destruct (_ && _); [|exact Hc].
    unfold cursorOk.
    by rewrite (startNavigation_cursor (cursor c) c eq_refl).
  - (* StartLocation *)
    destruct (cursor_StartLocation fromLib c) as (k & Hk & Hlt).
    unfold cursorOk in *. revert Hk Hc. unfold cursor at 1 3.
    intros Hk. injection Hk as Hk1 Hk2 Hk3 Hk4 Hk5.
    unfold cursor. rewrite Hk1, Hk2, Hk3, Hk4. simpl. intuition lia.
  - (* Wake *)
    destruct (sleeping c) as [|n] eqn:Hsl.
    { intros _. rewrite next_body, Hsl. exact Hc. }
    unfold cursorOk in *. revert Hc. unfold cursor at 1. rewrite Hsl.
    destruct (cursor_Wake c n Hsl) as [Hk | (k & Hk & Hlt)];
      revert Hk; unfold cursor at 1; intros Hk;
      injection Hk as Hk1 Hk2 Hk3 Hk4 Hk5;
      unfold cursor; rewrite Hk1, Hk2, Hk3, Hk4; simpl; intuition lia.
Qed.

Lemma after_keeps_cursorOk evs c :
  cursorOk c → singlePlayback getDistance evs c = true →
  cursorOk (after getDistance evs c).
Proof.
  revert c. induction evs as [|e evs IH]; intros c Hc Hs; [exact Hc|].
  rewrite after_cons. simpl in Hs. apply andb_prop in Hs as [_ Hs].
  apply IH; [|exact Hs].
  apply next_keeps_cursorOk; [exact Hc|].
  destruct evs; simpl in Hs; apply andb_prop in Hs as [Hs _];
    by apply bool_decide_eq_true in Hs.
Qed.

(** After the unmount no handler changes the state, and only a
    [startNavigation] that goes on from its [await] asks for a sleep. *)
Lemma step_frozen e st :
  keeps (frozenAt st) (λ _, True) (step getDistance e).
Proof. destruct e; cmd_unfold; eauto 200 with frozen nocore. Qed.

Lemma step_frozen_quiet e st :
  (∀ fromLib, e ≠ StartLocation fromLib) →
  keeps (frozenAt st) noSleep (step getDistance e).
Proof.
  intros He. destruct e; try (by destruct (He fromLib));
    cmd_unfold; eauto 200 with frozen nocore.
Qed.

Lemma after_frozen evs st c :
  frozenAt st c → frozenAt st (after getDistance evs c).
Proof.
  revert c. induction evs as [|e evs IH]; intros c Hc; [exact Hc|].
  rewrite after_cons. apply IH. by apply (step_frozen e st).
Qed.

Lemma componentWillUnmount_frozen c :
  frozenAt (state c) (post componentWillUnmount c).
Proof.
  unfold frozenAt, componentWillUnmount; cmd_glue; simpl.
  by destruct (watchid c).
Qed.

(** *** The loop over the steps *)

Lemma firstManeuver_ahead coords pre rest i :
  Forall (maneuverAhead getDistance coords) pre →
  firstManeuver getDistance coords (pre ++ rest) i =
    firstManeuver getDistance coords rest (i + length pre).
Proof.
  intros Hpre. revert i.
  induction Hpre as [|x pre Hx _ IH]; intros i; simpl.
  - by rewrite Nat.add_0_r.
  - destruct Hx as [-> | (m & -> & Hm)].
    + rewrite IH. f_equal. lia.
    + destruct (Z.ltb_spec m 10); [lia|]. rewrite IH. f_equal. lia.
Qed.

Lemma firstManeuver_due coords s rest i :
  maneuverDue getDistance coords s →
  firstManeuver getDistance coords (s :: rest) i = Some (i, s).
Proof.
  intros (m & Hd & Hm). simpl. rewrite Hd.
  destruct (Z.ltb_spec m 10); [reflexivity | lia].
Qed.

Lemma firstManeuver_Some coords steps i j s :
  firstManeuver getDistance coords steps i = Some (j, s) →
  ∃ pre rest,
    steps = pre ++ s :: rest ∧ j = (i + length pre)%nat
    ∧ Forall (maneuverAhead getDistance coords) pre
    ∧ maneuverDue getDistance coords s.
Proof.
  revert i. induction steps as [|x steps IH]; intros i; simpl; [done|].
  destruct (getDistance coords (Some (step_point x))) as [m| |] eqn:Hd;
    [destruct (Z.ltb_spec m 10) as [Hlt|Hge]| |done].
  - intros [= <- <-]. exists [], steps. simpl.
    repeat split; [lia | constructor | by exists m].
  - intros (pre & rest & -> & -> & Hpre & Hs)%IH.
    exists (x :: pre), rest. simpl. repeat split; [lia| |done].
    constructor; [right; by exists m | done].
  - intros (pre & rest & -> & -> & Hpre & Hs)%IH.
    exists (x :: pre), rest. simpl. repeat split; [lia| |done].
    constructor; [by left | done].
Qed.

Lemma firstManeuver_None_ahead coords steps i :
  Forall (maneuverAhead getDistance coords) steps →
  firstManeuver getDistance coords steps i = None.
Proof.
  intros H. rewrite <- (app_nil_r steps).
  by rewrite firstManeuver_ahead.
Qed.

Lemma set_steps_same c :
  set_state (State.set_steps (State.steps (state c))) c = c.
Proof. by destruct c as [p [] ? ? ? ? ? ? ?]. Qed.

Lemma set_sleeping_same c : set_sleeping (sleeping c) c = c.
Proof. by destruct c. Qed.

(** With every step still ahead the call does nothing. *)
Lemma animateNavigation_keeps coords c :
  Forall (maneuverAhead getDistance coords) (State.steps (state c)) →
  animateNavigation getDistance coords c = (tt, c, []).
Proof.
  intros H. unfold animateNavigation; cmd_glue; simpl.
  by rewrite firstManeuver_None_ahead.
Qed.

(** Whatever the steps, the call leaves them as they were or takes out
    one step that is due, the steps before it being ahead. *)
Lemma animateNavigation_outcome coords c :
  post (animateNavigation getDistance coords) c = c
  ∨ ∃ pre s rest,
      State.steps (state c) = pre ++ s :: rest
      ∧ Forall (maneuverAhead getDistance coords) pre
      ∧ maneuverDue getDistance coords s
      ∧ post (animateNavigation getDistance coords) c =
          set_state (State.set_steps (pre ++ rest)) c.
Proof.
  unfold animateNavigation; cmd_glue; simpl.
  destruct (firstManeuver _ _ _ _) as [[j s]|] eqn:Hf; [|by left].
  destruct (cancelNavigation c) eqn:Hcn; [by left|].
  right. apply firstManeuver_Some in Hf as (pre & rest & Hst & -> & Hpre & Hs).
  exists pre, s, rest. repeat split; try done. simpl. rewrite Hcn. simpl.
  rewrite Hst, delete_middle. by destruct c as [p [] ? ? ? ? ? ? ?].
Qed.

End facts.

Section claims.
Context (getDistance : Coords → option Coords → Distance).

Lemma set_steps_twice ss c :
  set_state (State.set_steps ss) (set_state (State.set_steps ss) c)
  = set_state (State.set_steps ss) c.
Proof. by destruct c as [p [] ? ? ? ? ? ? ?]. Qed.

Lemma animateNavigation_shape (coords : Coords) (c : Component) :
  ∃ (ss : list Step) (l : list Effect),
    animateNavigation getDistance coords c
    = (tt, set_state (State.set_steps ss) c, l)
    ∧ (l = [] ∨ ∃ s : Step, l = [MapAnimateToBearing (bearing s)]).
Proof.
  unfold animateNavigation; cmd_glue; simpl.
  destruct (firstManeuver _ _ _ _) as [[j s]|];
    [destruct (cancelNavigation c) eqn:Hcn|]; simpl; rewrite ?Hcn; simpl.
  - exists (State.steps (state c)), []. rewrite set_steps_same. auto.
  - exists (delete j (State.steps (state c))), [MapAnimateToBearing (bearing s)].
    rewrite set_steps_twice. eauto.
  - exists (State.steps (state c)), []. rewrite set_steps_same. auto.
Qed.

(** Following the user on the map moves no field but [steps] and does not
    report an arrival. *)
Lemma follow_shape (b : bool) (coords : Coords) (c : Component) :
  ∃ (ss : list Step) (l : list Effect),
    Cmd.when b (animateToCoordinates coords;;
                animateNavigation getDistance coords) c
    = (tt, set_state (State.set_steps ss) c, l)
    ∧ OnDestinationReached ∉ l.
Proof.
  destruct b; simpl.
  2: { exists (State.steps (state c)), []. rewrite set_steps_same.
       split; [reflexivity | apply not_elem_of_nil]. }
  destruct (animateNavigation_shape coords c) as (ss & l & Hnav & Hl).
  unfold animateToCoordinates, mbind, Cmd_bind, Cmd.bind.
  destruct (Js.truthy_num (latitude coords) && Js.truthy_num (longitude coords));
    cmd_glue; simpl; rewrite Hnav; eexists _, _; (split; [reflexivity|]);
    destruct Hl as [-> | [s ->]];
    rewrite ?elem_of_cons, ?elem_of_nil; intuition discriminate.
Qed.


(** During navigation the steps a position update leaves are those
    [animateNavigation] leaves; outside navigation they are untouched. *)
Lemma checkUserLocation_steps (coords : Coords) (c : Component) :
  State.steps (state (post (checkUserLocation getDistance coords) c))
  = if State.isNavigation (state c)
    then State.steps (state (post (animateNavigation getDistance coords) c))
    else State.steps (state c).
Proof.
  destruct (follow_shape (State.isNavigation (state c)) coords c)
    as (ss & l & Hf & _).
  assert (Hss : ss = if State.isNavigation (state c)
                     then State.steps
                            (state (post (animateNavigation getDistance coords) c))
                     else State.steps (state c)).
  { revert Hf. destruct (State.isNavigation (state c)); simpl.
    - unfold animateToCoordinates, mbind, Cmd_bind, Cmd.bind, post.
      destruct (Js.truthy_num (latitude coords)
                && Js.truthy_num (longitude coords));
        cmd_glue; simpl;
        destruct (animateNavigation getDistance coords c) as [[[] c1] l1];
        simpl; intros [= -> _]; done.
    - unfold mret, Cmd_ret, Cmd.ret. intros [= Hc _].
      by rewrite Hc at 1. }
  rewrite <- Hss. clear Hss.
  unfold post, checkUserLocation, mbind, Cmd_bind in Hf |- *.
  unfold Cmd.bind at 1. unfold Cmd.get at 1. cbv beta iota zeta.
  unfold Cmd.bind at 1. rewrite Hf. cbv beta iota zeta.
  destruct (getDistance coords (last (State.coordinates (state c))))
    as [m| |]; [destruct (m <=? 20)%Z|..]; cmd_glue; simpl;
    try destruct (cancelNavigation c); done.
Qed.

(** On a component that has not been unmounted, the first step closer
    than 10 is taken out and the map is turned to its bearing. *)
Lemma animateNavigation_drops
    (coords : Coords) (c : Component) (pre : list Step) (s : Step)
    (rest : list Step) :
  cancelNavigation c = false →
  State.steps (state c) = pre ++ s :: rest →
  Forall (maneuverAhead getDistance coords) pre →
  maneuverDue getDistance coords s →
  animateNavigation getDistance coords c =
    (tt, set_state (State.set_steps (pre ++ rest)) c,
     [MapAnimateToBearing (bearing s)]).
Proof.
  intros Hcn Hst Hpre Hs. unfold animateNavigation; cmd_glue; simpl.
  rewrite Hst, firstManeuver_ahead, firstManeuver_due by done.
  simpl. rewrite Hcn; simpl. rewrite Hcn; simpl.
  rewrite delete_middle. by destruct c as [p [] ? ? ? ? ? ? ?].
Qed.

(** C4, as amended. When the navigation-watch callback receives a
    coordinate on a component that is navigating and has not been
    unmounted, the distance from the coordinate to the steps is measured
    with the distance helper, in list order, and compared with 10. The
    first step that is closer than 10 meters is taken out of the steps
    list, and it alone, the map being turned to its bearing; the steps
    before it, which are not that close, and the steps after it stay,
    closer than 10 meters or not. *)
Theorem checkUserLocation_drops_first_due_step
    (coords : Coords) (c : Component) (pre : list Step) (s : Step)
    (rest : list Step) :
  cancelNavigation c = false →
  State.isNavigation (state c) = true →
  State.steps (state c) = pre ++ s :: rest →
  Forall (maneuverAhead getDistance coords) pre →
  maneuverDue getDistance coords s →
  State.steps (state (post (checkUserLocation getDistance coords) c))
  = pre ++ rest
  ∧ MapAnimateToBearing (bearing s)
    ∈ (checkUserLocation getDistance coords c).2.
Proof.
  intros Hcn Hnav Hst Hpre Hs.
  pose proof (animateNavigation_drops coords c pre s rest Hcn Hst Hpre Hs)
    as Hdrop.
  split.
  - rewrite checkUserLocation_steps, Hnav. unfold post. by rewrite Hdrop.
  - unfold checkUserLocation, animateToCoordinates, mbind, Cmd_bind, Cmd.bind,
      Cmd.get, Cmd.when. rewrite Hnav.
    destruct (Js.truthy_num (latitude coords)
              && Js.truthy_num (longitude coords));
      cmd_glue; simpl; rewrite Hdrop; simpl;
      (destruct (getDistance coords (last (State.coordinates (state c))))
         as [m| |]; [destruct (m <=? 20)%Z|..]); simpl;
      rewrite ?Hcn; simpl;
      rewrite ?elem_of_app, ?elem_of_cons; auto.
Qed.


(** C8. Once [destinationReached] is true it stays true through every
    sequence of events the component can handle, position updates far
    from the destination included. *)
Theorem destinationReached_stays (c : Component) (evs : list Event) :
  State.destinationReached (state c) = true →
  State.destinationReached (state (after getDistance evs c)) = true.
Proof.
  revert c. induction evs as [|e evs IH]; intros c Hc; [exact Hc|].
  rewrite after_cons. apply IH. by apply (step_keeps_reached getDistance e).
Qed.

(** C6, as amended. From the constructor on, as long as no two playback
    iterations are ever asleep at once, [currentCoordinateIndex] is at
    most the length of [coordinates]. *)
Theorem cursor_at_most_length
    (width height : Q) (p : Props.t) (fake : bool) (evs : list Event) :
  singlePlayback getDistance evs (constructor width height p fake) = true →
  (State.currentCoordinateIndex
     (state (after getDistance evs (constructor width height p fake)))
   ≤ length
       (State.coordinates
          (state (after getDistance evs (constructor width height p fake)))))%nat.
Proof.
  intros Hs.
  assert (H0 : cursorOk (constructor width height p fake)).
  { unfold cursorOk, cursor, cursorGood; simpl.
    repeat split; try lia; discriminate. }
  apply (after_keeps_cursorOk getDistance evs) in H0; [|exact Hs].
  unfold cursorOk, cursor, cursorGood in H0. tauto.
Qed.

(** The marker of the simulated position is drawn only at a coordinate
    the index points to, so an index equal to the length draws none. *)
Lemma renderLocationMarker_in_bounds (c : Component) (x : Coords) :
  renderLocationMarker c = Some x →
  (State.currentCoordinateIndex (state c)
   < length (State.coordinates (state c)))%nat.
Proof.
  unfold renderLocationMarker.
  destruct (negb (fakeNavigation c)); [done|].
  destruct (_ || _); [done|].
  intros H. by apply lookup_lt_Some in H.
Qed.

Lemma renderLocationMarker_at_length (c : Component) :
  State.currentCoordinateIndex (state c)
  = length (State.coordinates (state c)) →
  renderLocationMarker c = None.
Proof.
  intros H. unfold renderLocationMarker.
  destruct (negb (fakeNavigation c)); [done|].
  rewrite (lookup_ge_None_2 _ _) by lia.
  by rewrite !orb_true_r.
Qed.

(** When the permission helper answers with a promise, the test of
    [componentDidMount] is false whatever the promise resolves to: no
    alert is raised and the location is asked for. *)
Lemma mount_permission_promise (p : Props.t) (granted : bool) (c : Component) :
  mounting c = AwaitProviderStatus p →
  mounting (after getDistance
              [ProviderStatus true (Js.Promise granted); PermissionAwaited] c)
  = AwaitLocation p
      (if Js.truthy_num (Props.userLatitude (props c))
       then Some (mkCoords (Props.userLatitude (props c))
                           (Props.userLongitude (props c)))
       else None)
  ∧ effects getDistance
      [ProviderStatus true (Js.Promise granted); PermissionAwaited] c
    = IsPermissionGranted "LOCATION"
      :: (if Js.truthy_num (Props.userLatitude (props c)) then []
          else [LibGetLocation]).
Proof.
  intros Hm. unfold after, effects, run, step; cmd_unfold; cmd_glue; simpl.
  rewrite Hm; simpl.
  destruct (Js.truthy_num (Props.userLatitude (props c))); by simpl.
Qed.

(** When the helper answers with a plain boolean, the test is the
    negation of the answer: [false] raises the alert and ends the mount
    sequence. *)
Lemma mount_permission_plain_denied (p : Props.t) (c : Component) :
  mounting c = AwaitProviderStatus p →
  mounting (after getDistance
              [ProviderStatus true (Js.Now false); PermissionAwaited] c)
  = MountReturned
  ∧ effects getDistance
      [ProviderStatus true (Js.Now false); PermissionAwaited] c
    = [ IsPermissionGranted "LOCATION";
        AlertAlert "Permission" "You need to enable location services" [] ].
Proof.
  intros Hm. unfold after, effects, run, step; cmd_unfold; cmd_glue; simpl.
  rewrite Hm; simpl. done.
Qed.

End claims.

(** *** Runs on the sample route *)

Import Samples.

Example distance_samples :
  gridDistance (point 100 100) (Some (point 100 100)) = Meters 0
  ∧ gridDistance (point 90 90) (Some (point 100 100)) = Meters 20
  ∧ gridDistance (point 0 0) (Some (point 100 100)) = Meters 200
  ∧ gridDistance (point 0 0) None = Raise.
Proof. repeat split; vm_compute; reflexivity. Qed.

Example mounted_route :
  State.coordinates (state (mounted false))
  = [point 0 0; point 0 100; point 50 100; point 100 100]
  ∧ State.steps (state (mounted false))
    = [maneuver 0 100 0; maneuver 50 100 90]
  ∧ subscribed (mounted false) = true
  ∧ watchid (mounted false) = true.
Proof. repeat split; vm_compute; reflexivity. Qed.

Example arrival_at_destination :
  State.destinationReached
    (state (after gridDistance [Position (point 100 100)] (mounted false)))
  = true
  ∧ effects gridDistance [Position (point 100 100)] (mounted false)
    = [OnDestinationReached].
Proof. split; vm_compute; reflexivity. Qed.

Example arrival_at_twenty_meters :
  State.destinationReached
    (state (after gridDistance [Position (point 90 90)] (mounted false)))
  = true.
Proof. vm_compute; reflexivity. Qed.

Example no_arrival_at_twenty_one_meters :
  State.destinationReached
    (state (after gridDistance [Position (point 90 89)] (mounted false)))
  = false
  ∧ effects gridDistance [Position (point 90 89)] (mounted false) = [].
Proof. split; vm_compute; reflexivity. Qed.

(** A step exactly 10 meters away is not taken out: the comparison of
    [animateNavigation] is strict. *)
Example step_at_ten_meters_stays :
  gridDistance (point 40 100) (Some (step_point (maneuver 50 100 90)))
  = Meters 10
  ∧ animateNavigation gridDistance (point 40 100) (mounted false)
    = (tt, mounted false, []).
Proof. split; vm_compute; reflexivity. Qed.

Example step_at_nine_meters_goes :
  State.steps
    (state (post (animateNavigation gridDistance (point 41 100)) (mounted false)))
  = [maneuver 0 100 0].
Proof. vm_compute; reflexivity. Qed.

(** Of two steps that are both close, one call takes out the first only. *)
Example two_close_steps_one_dropped :
  State.steps
    (state
       (post (animateNavigation gridDistance (point 3 103))
          (set_state
             (State.set_steps [maneuver 0 100 0; maneuver 5 105 90])
             (mounted false))))
  = [maneuver 5 105 90].
Proof. vm_compute; reflexivity. Qed.


(** The component was unmounted while its position watch was pending, so
    the watch was not removed and still delivers. *)
Example leaked_watch_delivers :
  cancelNavigation leakedWatch = true
  ∧ watchid leakedWatch = true
  ∧ subscribed leakedWatch = true
  ∧ effects gridDistance [WillUnmount; WatchStarted] watchPending = []
  ∧ step gridDistance (Position (point 100 100)) leakedWatch
    = checkUserLocation gridDistance (point 100 100) leakedWatch
  ∧ checkUserLocation gridDistance (point 100 100) leakedWatch
    = (tt, leakedWatch, [OnDestinationReached]).
Proof. repeat split; vm_compute; reflexivity. Qed.


Example tight_navigation :
  cancelNavigation tightNavigation = false
  ∧ subscribed tightNavigation = true
  ∧ State.isNavigation (state tightNavigation) = true
  ∧ State.steps (state tightNavigation)
    = [maneuver 0 100 0; maneuver 5 105 90]
  ∧ gridDistance (point 3 103) (Some (step_point (maneuver 0 100 0)))
    = Meters 6
  ∧ gridDistance (point 3 103) (Some (step_point (maneuver 5 105 90)))
    = Meters 4
  ∧ effects gridDistance [Position (point 3 103)] tightNavigation
    = [ MapAnimateToCoordinate (point 3 103);
        MapAnimateToBearing (bearing (maneuver 0 100 0)) ]
  ∧ State.steps
      (state (after gridDistance [Position (point 3 103)] tightNavigation))
    = [maneuver 5 105 90].
Proof. repeat split; vm_compute; reflexivity. Qed.

(** C4 in the words of the specification does not hold: of two steps
    within the threshold of the coordinate received, the callback takes
    out the first and leaves the second, which is 4 meters away, among
    the steps. *)
Lemma second_close_step_stays :
  ¬ dueStepsDropped gridDistance (point 3 103) tightNavigation.
Proof.
  intros H.
  assert (H0 : State.steps (state tightNavigation)
               = [maneuver 0 100 0; maneuver 5 105 90])
    by (vm_compute; reflexivity).
  assert (H1 : State.steps
                 (state (post (checkUserLocation gridDistance (point 3 103))
                           tightNavigation))
               = [maneuver 5 105 90])
    by (vm_compute; reflexivity).
  apply (H (maneuver 5 105 90)).
  - rewrite H0, !elem_of_cons. auto.
  - exists 4%Z. split; [vm_compute; reflexivity | lia].
  - rewrite H1, elem_of_cons. auto.
Qed.

Lemma checkUserLocation_drops_first_due_step_witness :
  cancelNavigation tightNavigation = false
  ∧ State.isNavigation (state tightNavigation) = true
  ∧ State.steps (state tightNavigation)
    = [] ++ maneuver 0 100 0 :: [maneuver 5 105 90]
  ∧ Forall (maneuverAhead gridDistance (point 3 103)) []
  ∧ maneuverDue gridDistance (point 3 103) (maneuver 0 100 0)
  ∧ State.steps
      (state (post (checkUserLocation gridDistance (point 3 103))
                tightNavigation))
    = [] ++ [maneuver 5 105 90]
  ∧ MapAnimateToBearing (bearing (maneuver 0 100 0))
    ∈ (checkUserLocation gridDistance (point 3 103) tightNavigation).2.
Proof.
  assert (H1 : cancelNavigation tightNavigation = false)
    by (vm_compute; reflexivity).
  assert (H2 : State.isNavigation (state tightNavigation) = true)
    by (vm_compute; reflexivity).
  assert (H3 : State.steps (state tightNavigation)
               = [] ++ maneuver 0 100 0 :: [maneuver 5 105 90])
    by (vm_compute; reflexivity).
  assert (H4 : Forall (maneuverAhead gridDistance (point 3 103)) [])
    by constructor.
  assert (H5 : maneuverDue gridDistance (point 3 103) (maneuver 0 100 0)).
  { exists 6%Z. split; [vm_compute; reflexivity | lia]. }
  split; [exact H1|]. split; [exact H2|]. split; [exact H3|].
  split; [exact H4|]. split; [exact H5|].
  exact (checkUserLocation_drops_first_due_step gridDistance (point 3 103)
           tightNavigation [] (maneuver 0 100 0) [maneuver 5 105 90]
           H1 H2 H3 H4 H5).
Defined.

(** With a step that is not close before it, the close step is the one
    taken out. *)
Example later_step_dropped :
  State.steps (state playing) = [maneuver 0 100 0; maneuver 50 100 90]
  ∧ State.steps
      (state (after gridDistance [Position (point 50 95)] playing))
    = [maneuver 0 100 0].
Proof. split; vm_compute; reflexivity. Qed.

(** The component was unmounted while the [startNavigation] made by the
    button waited for the location. *)
Example start_pending_sample :
  cancelNavigation startPending = true
  ∧ length (starting startPending) = 1%nat
  ∧ sleeping startPending = 0%nat
  ∧ effects gridDistance [StartLocation (point 0 0)] startPending
    = [AsyncSleep 1500]
  ∧ sleeping (after gridDistance [StartLocation (point 0 0)] startPending)
    = 1%nat.
Proof. repeat split; vm_compute; reflexivity. Qed.



(** C6 in the words of the specification does not hold: when the playback
    has gone through the route the index equals the length of the non-empty
    list. *)
Lemma playback_ends_past_last_index :
  ¬ indexInBounds (after gridDistance playback (fresh true)).
Proof.
  intros H.
  assert (Hne : State.coordinates
                  (state (after gridDistance playback (fresh true))) ≠ [])
    by (vm_compute; discriminate).
  specialize (H Hne). vm_compute in H. lia.
Qed.

Example playback_final_state :
  State.currentCoordinateIndex
    (state (after gridDistance playback (fresh true))) = 4%nat
  ∧ length (State.coordinates
              (state (after gridDistance playback (fresh true)))) = 4%nat
  ∧ sleeping (after gridDistance playback (fresh true)) = 0%nat
  ∧ State.destinationReached
      (state (after gridDistance playback (fresh true))) = true
  ∧ State.steps (state (after gridDistance playback (fresh true))) = []
  ∧ renderLocationMarker (after gridDistance playback (fresh true)) = None.
Proof. repeat split; vm_compute; reflexivity. Qed.

Lemma cursor_at_most_length_witness :
  singlePlayback gridDistance playback (constructor 360 640 props true) = true
  ∧ (State.currentCoordinateIndex
       (state (after gridDistance playback (constructor 360 640 props true)))
     ≤ length
         (State.coordinates
            (state (after gridDistance playback
                      (constructor 360 640 props true)))))%nat.
Proof.
  split; [vm_compute; reflexivity|].
  apply (cursor_at_most_length gridDistance 360 640 props true playback).
  vm_compute; reflexivity.
Defined.

(** Pausing and resuming within one sleep starts a second loop beside the
    first, and the two together push the index past the length. *)
Example overlapping_playbacks_overrun :
  State.currentCoordinateIndex
    (state (after gridDistance
              (mountEvents
               ++ [ PressStartNavigation; StartLocation (point 0 0);
                    PropsChanged paused; PropsChanged props;
                    Wake; Wake; Wake; Wake; Wake ])
              (fresh true))) = 5%nat.
Proof. vm_compute; reflexivity. Qed.

Lemma destinationReached_stays_witness :
  State.destinationReached
    (state (after gridDistance [Position (point 100 100)] (mounted false)))
  = true
  ∧ State.destinationReached
      (state (after gridDistance [Position (point 0 0); Position (point 0 50)]
                (after gridDistance [Position (point 100 100)] (mounted false))))
    = true.
Proof.
  split; [vm_compute; reflexivity|].
  apply (destinationReached_stays gridDistance
           (after gridDistance [Position (point 100 100)] (mounted false))
           [Position (point 0 0); Position (point 0 50)]).
  vm_compute; reflexivity.
Defined.

(** C3, on the code: location services are enabled and the permission
    helper answers with a promise of [false]. No alert is raised; the
    mount sequence asks for the location, focuses the map and fetches the
    route. *)
Theorem mount_without_permission_goes_on :
  effects gridDistance
    [ DidMount; ProviderStatus true (Js.Promise false); PermissionAwaited;
      MountLocation (point 0 0) ]
    (fresh false)
  = [ GetProviderStatus;
      IsPermissionGranted "LOCATION";
      LibGetLocation;
      MapAnimateToRegion
        (mkRegion (Some 0%Q) (Some 0%Q) 0.0122 (360 / 640 * 0.0122));
      MapboxGetDirections (point 0 0) (mkCoords (Some 100%Q) (Some 100%Q)) ]
  ∧ mounting
      (after gridDistance
         [ DidMount; ProviderStatus true (Js.Promise false); PermissionAwaited;
           MountLocation (point 0 0) ]
         (fresh false))
    = AwaitDirections props.
Proof. split; vm_compute; reflexivity. Qed.

Example unmount_then_wake_sample :
  step gridDistance Wake
    (after gridDistance
       (mountEvents
        ++ [PressStartNavigation; StartLocation (point 0 0); WillUnmount])
       (fresh true))
  = (tt,
     set_sleeping 0
       (after gridDistance
          (mountEvents
           ++ [PressStartNavigation; StartLocation (point 0 0); WillUnmount])
          (fresh true)),
     []).
Proof. vm_compute; reflexivity. Qed.

End MapRouteFacts.

(** * Further properties *)

(** ** The exterior-check screen *)

Module ExteriorCheckMore.
Import ExteriorCheckScreen.

Lemma post_toggleCheckbox (id : string) (st : State) :
  post (toggleCheckbox id) st = {[ id := Js.lnot (st !! id) ]} ∪ st.
Proof. reflexivity. Qed.

Lemma toggled_lookup (id k : string) (st : State) :
  post (toggleCheckbox id) st !! k
  = if decide (id = k) then Some (Js.lnot (st !! id)) else st !! k.
Proof.
  rewrite post_toggleCheckbox. destruct (decide (id = k)) as [<-|Hne].
  - rewrite lookup_union_l'; rewrite lookup_singleton_eq; eauto.
  - rewrite lookup_union_r; [done|]. by rewrite lookup_singleton_ne.
Qed.

Lemma post_seq (m1 m2 : Cmd State unit) (st : State) :
  post (m1;; m2) st = post m2 (post m1 st).
Proof. unfold mbind, Cmd_bind. by rewrite post_bind. Qed.

(** X1. Toggling the same check twice gives back the state it started
    from, for a flag that is in the state. *)
Theorem toggleCheckbox_twice (id : string) (st : State) (b : bool) :
  st !! id = Some b →
  post (toggleCheckbox id;; toggleCheckbox id) st = st.
Proof.
  intros Hb. rewrite post_seq. apply map_eq; intros k.
  rewrite !toggled_lookup. destruct (decide (id = k)) as [<-|Hne]; [|done].
  rewrite decide_True by done. rewrite Hb. simpl. by destruct b.
Qed.

Lemma toggleCheckbox_twice_witness :
  initialState !! "rearChecked" = Some false
  ∧ post (toggleCheckbox "rearChecked";; toggleCheckbox "rearChecked")
      initialState = initialState.
Proof.
  split; [reflexivity|].
  apply (toggleCheckbox_twice "rearChecked" initialState false). reflexivity.
Defined.

(** X2. Two toggles give the same state in either order. *)
Theorem toggleCheckbox_commute (id1 id2 : string) (st : State) :
  post (toggleCheckbox id1;; toggleCheckbox id2) st
  = post (toggleCheckbox id2;; toggleCheckbox id1) st.
Proof.
  destruct (decide (id1 = id2)) as [->|Hne]; [done|].
  rewrite !post_seq. apply map_eq; intros k. rewrite !toggled_lookup.
  rewrite (decide_False (P := id2 = id1)) by done.
  rewrite (decide_False (P := id1 = id2)) by done.
  destruct (decide (id2 = k)), (decide (id1 = k)); congruence.
Qed.

Lemma pressCount_cons (id x : string) (ids : list string) :
  pressCount id (x :: ids)
  = if decide (x = id) then S (pressCount id ids) else pressCount id ids.
Proof.
  unfold pressCount. rewrite filter_cons. by destruct (decide (x = id)).
Qed.

Lemma presses_lookup (ids : list string) (id : string) (st : State) (b : bool) :
  st !! id = Some b →
  post (presses ids) st !! id = Some (xorb b (Nat.odd (pressCount id ids))).
Proof.
  revert st b. induction ids as [|x ids IH]; intros st b Hb; simpl.
  - unfold post; simpl. rewrite Hb. by destruct b.
  - rewrite post_seq, pressCount_cons.
    destruct (decide (x = id)) as [->|Hne].
    + rewrite (IH _ (negb b)).
      * rewrite Nat.odd_succ, <- Nat.negb_odd. by destruct b, (Nat.odd _).
      * rewrite toggled_lookup, decide_True by done. by rewrite Hb.
    + apply IH. by rewrite toggled_lookup, decide_False.
Qed.

(** X3. Starting from the constructor's state, after any sequence of
    presses on the checks the open-car button is enabled exactly when each
    of the four checks has been pressed an odd number of times. *)
Theorem openCar_enabled_by_presses (ids : list string) :
  open_disabled (view_openCar (render (post (presses ids) initialState)))
  = false
  ↔ Forall (λ id, Nat.odd (pressCount id ids) = true) checklistIds.
Proof.
  assert (Hl : ∀ id, id ∈ checklistIds →
            post (presses ids) initialState !! id
            = Some (Nat.odd (pressCount id ids))).
  { intros id Hid. rewrite (presses_lookup ids id initialState false); [done|].
    unfold checklistIds in Hid.
    repeat (apply elem_of_cons in Hid as [->|Hid]; [reflexivity|]).
    by apply elem_of_nil in Hid. }
  unfold render; simpl. unfold Js.lnot.
  rewrite negb_false_iff, ExteriorCheckFacts.itemsChecked_truthy.
  unfold allFour, checklistIds.
  rewrite !Hl by (unfold checklistIds; rewrite !elem_of_cons; tauto).
  rewrite !Forall_cons, Forall_nil.
  split; [intros (?&?&?&?)|intros (?&?&?&?&_)]; repeat split; congruence.
Qed.

(** X4. Showing or hiding the issue modal sets [issueModalVisible] and
    nothing else: the four checks and with them the open-car button are as
    before. *)
Theorem issueModal_leaves_checks (st : State) :
  (view_issueModalVisible (render (post showIssueModal st)) = Some true
   ∧ view_issueModalVisible (render (post hideIssueModal st)) = Some false)
  ∧ (∀ k : string, k ≠ "issueModalVisible" →
       post showIssueModal st !! k = st !! k
       ∧ post hideIssueModal st !! k = st !! k)
  ∧ (view_openCar (render (post showIssueModal st)) = view_openCar (render st)
     ∧ view_openCar (render (post hideIssueModal st))
       = view_openCar (render st)).
Proof.
  assert (Hk : ∀ (v : bool) (k : string), k ≠ "issueModalVisible" →
            ({[ "issueModalVisible" := v ]} ∪ st : State) !! k = st !! k).
  { intros v k Hne. rewrite lookup_union_r; [done|].
    by rewrite lookup_singleton_ne. }
  assert (Hi : ∀ v : bool,
            itemsChecked ({[ "issueModalVisible" := v ]} ∪ st) = itemsChecked st).
  { intros v. unfold itemsChecked. by rewrite !Hk. }
  split; [|split].
  - split; unfold post, render; simpl;
      (rewrite lookup_union_l'; rewrite lookup_singleton_eq; eauto).
  - intros k Hne. split; apply Hk, Hne.
  - split; unfold post, render; simpl; by rewrite Hi.
Qed.

(** X5. Each row of the rendered check list shows the flag its own check
    toggles: pressing the check of a row (a flag that is in the state)
    negates what that row shows and changes what no other row shows. *)
Theorem row_check_flips_row (st : State) (i : nat) (row : CarCheckItem)
    (b : bool) :
  view_items (render st) !! i = Some row →
  item_checked row = Some b →
  ∃ row' : CarCheckItem,
    view_items (render (post (toggleCheckbox (item_onPressCheck row)) st)) !! i
    = Some row'
    ∧ item_checked row' = Some (negb b)
    ∧ item_title row' = item_title row
    ∧ ∀ (j : nat) (other : CarCheckItem),
        j ≠ i → view_items (render st) !! j = Some other →
        ∃ other' : CarCheckItem,
          view_items
            (render (post (toggleCheckbox (item_onPressCheck row)) st)) !! j
          = Some other'
          ∧ item_checked other' = item_checked other.
Proof.
  intros Hrow Hb. unfold render in *; simpl in *.
  destruct i as [|[|[|[|i]]]]; simpl in Hrow; try done;
    injection Hrow as <-; simpl in Hb |- *;
    (eexists; split; [reflexivity|]; simpl;
     split; [rewrite toggled_lookup, decide_True by done; by rewrite Hb|];
     split; [reflexivity|];
     intros j other Hj Hother;
     destruct j as [|[|[|[|j]]]]; simpl in Hother; try done;
     injection Hother as <-; simpl;
     eexists; (split; [reflexivity|]); simpl;
     by rewrite toggled_lookup, decide_False).
Qed.

Lemma row_check_flips_row_witness :
  view_items (render initialState) !! 2%nat
  = Some (mkCarCheckItem "Check Front Side" (Some false) "frontChecked" [])
  ∧ item_checked
      (mkCarCheckItem "Check Front Side" (Some false) "frontChecked" [])
    = Some false
  ∧ ∃ row' : CarCheckItem,
      view_items (render (post (toggleCheckbox "frontChecked") initialState))
        !! 2%nat = Some row'
      ∧ item_checked row' = Some (negb false)
      ∧ item_title row' = "Check Front Side"
      ∧ ∀ (j : nat) (other : CarCheckItem),
          j ≠ 2%nat → view_items (render initialState) !! j = Some other →
          ∃ other' : CarCheckItem,
            view_items
              (render (post (toggleCheckbox "frontChecked") initialState)) !! j
            = Some other'
            ∧ item_checked other' = item_checked other.
Proof.
  split; [reflexivity|]. split; [reflexivity|].
  apply (row_check_flips_row initialState 2
           (mkCarCheckItem "Check Front Side" (Some false) "frontChecked" [])
           false); reflexivity.
Defined.

(** X6. A key that is not in the state reads [undefined]: toggling it adds
    the key with the value [true] and changes no field that was there. *)
Theorem toggleCheckbox_missing_key (id : string) (st : State) :
  st !! id = None →
  post (toggleCheckbox id) st = <[ id := true ]> st
  ∧ dom (post (toggleCheckbox id) st) = {[ id ]} ∪ dom st.
Proof.
  intros Hn. rewrite post_toggleCheckbox, Hn. simpl.
  split; [by rewrite insert_union_singleton_l|].
  by rewrite dom_union_L, dom_singleton_L.
Qed.

Lemma toggleCheckbox_missing_key_witness :
  initialState !! "hoodChecked" = None
  ∧ post (toggleCheckbox "hoodChecked") initialState
    = <[ "hoodChecked" := true ]> initialState
  ∧ dom (post (toggleCheckbox "hoodChecked") initialState)
    = {[ "hoodChecked" ]} ∪ dom initialState.
Proof.
  split; [reflexivity|].
  apply (toggleCheckbox_missing_key "hoodChecked" initialState). reflexivity.
Defined.

End ExteriorCheckMore.

(** ** The app shell *)

Module AppMore.
Import App.

(** X7. Once the finish handler has run, [render] returns the navigator,
    whatever [skipLoadingScreen] is, with the route 'Main' for an
    authenticated user store and 'Auth' otherwise; the route the component
    held before plays no part. *)
Theorem render_after_finish (platformOS : string) (skip authenticated : option bool)
    (app : App) :
  render platformOS skip (post (_handleFinishLoading authenticated) app)
  = AppNavigator (String.eqb platformOS "ios")
      (if Js.truthy authenticated then "Main" else "Auth").
Proof. reflexivity. Qed.

End AppMore.

(** ** The map-route view *)

Module MapRouteMore.
Import MapRoute MapRouteFacts.

Section handlers.
Context (getDistance : Coords → option Coords → Distance).

Lemma truthy_num_zero (n : Js.num) (q : Q) :
  n = Some q → (q == 0)%Q → Js.truthy_num n = false.
Proof.
  intros -> Hq. simpl. apply negb_false_iff. by apply Qeq_bool_iff.
Qed.

(** X8. [getLocation] leaves the component as it is. It answers with the
    position of the props exactly when [userLatitude] is a number other
    than 0, and asks [lib.getLocation] exactly when it does not; a user
    latitude of 0 counts as no position given. *)
Theorem getLocation_source (c : Component) :
  ∃ (r : option Coords) (log : list Effect),
    getLocation c = (r, c, log)
    ∧ (r = Some (mkCoords (Props.userLatitude (props c))
                   (Props.userLongitude (props c)))
       ∧ log = []
       ∨ r = None ∧ log = [LibGetLocation])
    ∧ (is_Some r ↔ Js.truthy_num (Props.userLatitude (props c)) = true)
    ∧ (∀ q : Q, Props.userLatitude (props c) = Some q → (q == 0)%Q →
         r = None).
Proof.
  unfold getLocation; cmd_glue; simpl.
  destruct (Js.truthy_num (Props.userLatitude (props c))) eqn:Ht; simpl;
    eexists _, _; (split; [reflexivity|]).
  - split; [by left|]. split; [by split; eauto|].
    intros q Hq H0. rewrite (truthy_num_zero _ q Hq H0) in Ht. done.
  - split; [by right|]. split; [|done].
    split; [intros [? ?]; done | done].
Qed.


(** X10. The two buttons are never on screen together: when the
    confirm-arrival button is rendered the start-navigation button is not,
    and the other way round. *)
Theorem buttons_exclude_each_other (c : Component) :
  renderConfirmalButton c = None ∨ renderNavigationButton c = None.
Proof.
  unfold renderConfirmalButton, renderNavigationButton.
  destruct (State.destinationReached (state c)); simpl.
  - by right.
  - left. by rewrite orb_true_r.
Qed.

(** X11. The marker of the simulated position is rendered only with the
    developer setting on, the map ready and the navigation started, and
    then at the coordinate under the index, which is a valid index. *)
Theorem renderLocationMarker_drawn (c : Component) (x : Coords) :
  renderLocationMarker c = Some x →
  fakeNavigation c = true
  ∧ State.isMapReady (state c) = true
  ∧ State.isNavigation (state c) = true
  ∧ State.coordinates (state c) !! State.currentCoordinateIndex (state c)
    = Some x
  ∧ (State.currentCoordinateIndex (state c)
     < length (State.coordinates (state c)))%nat.
Proof.
  unfold renderLocationMarker.
  destruct (fakeNavigation c); [|done].
  destruct (State.isMapReady (state c)); [|done].
  destruct (State.isNavigation (state c)); [|done]. simpl.
  destruct (bool_decide _); [|done]. simpl. intros H.
  repeat split; try done. by apply lookup_lt_Some in H.
Qed.

(** X12. Before the navigation has started a position update does not
    touch the map or the steps. Away from the destination the call does
    nothing. Within 20 meters of it the call calls
    [onDestinationReached] and, on a component that has not been
    unmounted, raises the arrival flag; on an unmounted component the
    callback is called all the same and the flag is left as it was. *)
Theorem checkUserLocation_before_navigation (coords : Coords) (c : Component) :
  State.isNavigation (state c) = false →
  (¬ withinArrival (getDistance coords (last (State.coordinates (state c))))
   ∧ checkUserLocation getDistance coords c = (tt, c, []))
  ∨ (withinArrival (getDistance coords (last (State.coordinates (state c))))
     ∧ cancelNavigation c = false
     ∧ checkUserLocation getDistance coords c
       = (tt, set_state (State.set_destinationReached true) c,
          [OnDestinationReached]))
  ∨ (withinArrival (getDistance coords (last (State.coordinates (state c))))
     ∧ cancelNavigation c = true
     ∧ checkUserLocation getDistance coords c
       = (tt, c, [OnDestinationReached])).
Proof.
  intros Hn. unfold checkUserLocation; cmd_glue; simpl. rewrite Hn; simpl.
  destruct (getDistance _ _) as [m| |];
    [|left; split; [by intros (m0 & ? & ?) | done]..].
  destruct (Z.leb_spec m 20) as [Hle|Hgt].
  - assert (Hw : withinArrival (Meters m)) by (by exists m).
    right. destruct (cancelNavigation c); [right | left]; done.
  - left. split; [|done]. intros (m0 & [= <-] & ?). lia.
Qed.

Lemma firstManeuver_raise coords pre s rest i :
  Forall (maneuverAhead getDistance coords) pre →
  getDistance coords (Some (step_point s)) = Raise →
  firstManeuver getDistance coords (pre ++ s :: rest) i = None.
Proof.
  intros Hpre Hs. rewrite firstManeuver_ahead by done. simpl. by rewrite Hs.
Qed.

(** X13. A call of [animateNavigation] changes no field but [steps]; the
    steps it leaves are the steps it found with at most one taken out, in
    their order; and the map is turned exactly when a step is taken out. *)
Theorem animateNavigation_at_most_one (coords : Coords) (c : Component) :
  ∃ (ss : list Step) (log : list Effect),
    animateNavigation getDistance coords c
    = (tt, set_state (State.set_steps ss) c, log)
    ∧ ss `sublist_of` State.steps (state c)
    ∧ (length (State.steps (state c)) ≤ S (length ss))%nat
    ∧ (ss = State.steps (state c) ∧ log = []
       ∨ ∃ s : Step,
           S (length ss) = length (State.steps (state c))
           ∧ maneuverDue getDistance coords s
           ∧ log = [MapAnimateToBearing (bearing s)]).
Proof.
  unfold animateNavigation; cmd_glue; simpl.
  destruct (firstManeuver _ _ _ _) as [[j s]|] eqn:Hf;
    [destruct (cancelNavigation c) eqn:Hcn|]; simpl; rewrite ?Hcn; simpl.
  - exists (State.steps (state c)), []. rewrite set_steps_same.
    split; [done|]. split; [done|]. split; [lia|]. by left.
  - apply firstManeuver_Some in Hf as (pre & rest & Hst & -> & Hpre & Hs).
    rewrite set_steps_twice. simpl. rewrite Hst, delete_middle.
    eexists _, _. split; [reflexivity|].
    assert (Hlen : length (pre ++ s :: rest) = S (length (pre ++ rest)))
      by (rewrite !length_app; simpl; lia).
    split; [apply sublist_app; [done|by apply sublist_cons]|].
    split; [lia|]. right. exists s. by rewrite Hlen.
  - exists (State.steps (state c)), []. rewrite set_steps_same.
    split; [done|]. split; [done|]. split; [lia|]. by left.
Qed.

(** X14. When the distance helper raises on a step, the loop of
    [animateNavigation] ends there: with no closer step before it, nothing
    is taken out, also when a step behind it is close enough. *)
Theorem animateNavigation_stops_at_raise (coords : Coords) (c : Component)
    (pre : list Step) (s : Step) (rest : list Step) :
  State.steps (state c) = pre ++ s :: rest →
  Forall (maneuverAhead getDistance coords) pre →
  getDistance coords (Some (step_point s)) = Raise →
  animateNavigation getDistance coords c = (tt, c, []).
Proof.
  intros Hst Hpre Hs. unfold animateNavigation; cmd_glue; simpl.
  by rewrite Hst, firstManeuver_raise.
Qed.

(** X15. With no step closer than 10 meters (the empty list of steps
    included) [animateNavigation] does nothing. *)
Theorem animateNavigation_far_from_steps (coords : Coords) (c : Component) :
  Forall (maneuverAhead getDistance coords) (State.steps (state c)) →
  animateNavigation getDistance coords c = (tt, c, []).
Proof. apply animateNavigation_keeps. Qed.

(** X16. New props that change neither [isNavigation] nor
    [pauseNavigation] are taken over and nothing else happens: no
    navigation is started and no playback is resumed. *)
Theorem propsChanged_unrelated (p : Props.t) (c : Component) :
  onScreen c = true →
  Props.isNavigation p = Props.isNavigation (props c) →
  Props.pauseNavigation p = Props.pauseNavigation (props c) →
  step getDistance (PropsChanged p) c = (tt, set_props p c, []).
Proof.
  intros Hon Hn Hp. unfold step, componentDidUpdate; cmd_glue; simpl.
  rewrite Hon; simpl. rewrite Hn, Hp, !eqb_reflx; simpl.
  by rewrite !andb_false_r.
Qed.

(** A playback iteration that goes on to its sleep asks for it last. *)
Lemma simulateNavigation_log (c : Component) :
  scheduled c = true →
  ∃ log : list Effect,
    (simulateNavigation getDistance c).2 = log ++ [AsyncSleep 1500].
Proof.
  intros Hs. unfold scheduled in Hs.
  unfold simulateNavigation; cmd_glue; simpl. rewrite Hs.
  destruct (State.coordinates (state c) !! _); simpl.
  - destruct (checkUserLocation getDistance _ c) as [[[] c1] l1]; simpl.
    by exists l1.
  - by exists [].
Qed.

(** X17. When [pauseNavigation] goes from true to false and there is a
    coordinate under the index, [componentDidUpdate] starts a playback
    iteration: one more iteration is asleep afterwards and a sleep of 1500
    ms has been asked for. Neither the developer setting [fakeNavigation]
    nor the [isNavigation] flag of the state is looked at, and it is the
    same whether or not the new props start the navigation as well. *)
Theorem resume_starts_playback (p : Props.t) (c : Component) (x : Coords) :
  onScreen c = true →
  Props.pauseNavigation (props c) = true →
  Props.pauseNavigation p = false →
  State.coordinates (state c) !! State.currentCoordinateIndex (state c)
  = Some x →
  sleeping (next getDistance (PropsChanged p) c) = S (sleeping c)
  ∧ State.currentCoordinateIndex (state (next getDistance (PropsChanged p) c))
    = State.currentCoordinateIndex (state c)
  ∧ ∃ log : list Effect,
      effects getDistance [PropsChanged p] c = log ++ [AsyncSleep 1500].
Proof.
  intros Hon Hp0 Hp1 Hx.
  assert (Hlt := lookup_lt_Some _ _ _ Hx).
  unfold effects, next, post, Cmd.exec, run, step, componentDidUpdate.
  unfold mbind, Cmd_bind, mret, Cmd_ret, Cmd.bind, Cmd.get, Cmd.gets,
    Cmd.modify, Cmd.ret.
  rewrite Hon. cbv beta iota zeta. simpl props.
  rewrite Hp0, Hp1. simpl negb. simpl andb.
  set (A := Props.isNavigation p && _).
  (* the call of [startNavigation], if there is one *)
  pose proof (when_cursor A _ (startNavigation_call_cursor _)
                (set_props p c) eq_refl) as Hk1.
  unfold post in Hk1.
  destruct (Cmd.when A startNavigation_call (set_props p c))
    as [[[] c1] l0]. simpl in Hk1.
  unfold cursor in Hk1; simpl in Hk1. injection Hk1 as Hcs1 Hi1 Hsl1 _ Hpa1.
  (* the iteration *)
  assert (Hsch : scheduled c1 = true).
  { unfold scheduled. rewrite Hpa1, Hp1, Hcs1, Hi1. simpl.
    by apply bool_decide_eq_true_2. }
  pose proof (simulateNavigation_cursor getDistance c1) as Hk2.
  destruct (simulateNavigation_log c1 Hsch) as (l1 & Hl1).
  rewrite Hsch in Hk2. unfold post in Hk2.
  change (Cmd.when true (simulateNavigation getDistance))
    with (simulateNavigation getDistance).
  destruct (simulateNavigation getDistance c1) as [[[] c2] l2].
  simpl in Hk2, Hl1. subst l2.
  unfold cursor in Hk2; simpl in Hk2. injection Hk2 as _ Hi2 Hsl2 _ _.
  (* the patch of [startNavigation] *)
  pose proof (when_cursor A _ (setState_isNavigation_cursor _) c2 eq_refl)
    as Hk3.
  assert (Hl3 : (Cmd.when A (setState (State.set_isNavigation true)) c2).2 = []).
  { destruct A; [|done]. cmd_glue; simpl. by destruct (cancelNavigation c2). }
  unfold post in Hk3.
  destruct (Cmd.when A (setState (State.set_isNavigation true)) c2)
    as [[[] c3] l3].
  simpl in Hk3, Hl3. subst l3.
  unfold cursor in Hk3; simpl in Hk3. injection Hk3 as _ Hi3 Hsl3 _ _.
  simpl. split; [congruence|]. split; [congruence|].
  exists (l0 ++ l1). by rewrite !app_nil_r, app_assoc.
Qed.

End handlers.

Section runs.
Context (getDistance : Coords → option Coords → Distance).

(** The handlers of the mount sequence, of the map, of the developer
    setting and of the unmount leave the route, the steps, the index, the
    two flags of the navigation, the props and the suspended calls alone. *)
Lemma light_frame e c :
  match e with
  | Directions _ | PropsChanged _ | StartLocation _ | Wake
  | Position _ | PressStartNavigation => False
  | _ => True
  end →
  State.coordinates (state (next getDistance e c)) = State.coordinates (state c)
  ∧ State.steps (state (next getDistance e c)) = State.steps (state c)
  ∧ State.currentCoordinateIndex (state (next getDistance e c))
    = State.currentCoordinateIndex (state c)
  ∧ State.destinationReached (state (next getDistance e c))
    = State.destinationReached (state c)
  ∧ State.isNavigation (state (next getDistance e c))
    = State.isNavigation (state c)
  ∧ props (next getDistance e c) = props c
  ∧ sleeping (next getDistance e c) = sleeping c
  ∧ starting (next getDistance e c) = starting c.
Proof.
  intros He. destruct c as [p [cs ss i f d m nav] cn w fk sb mo st sl].
  destruct e; try done; clear He; rewrite next_body; simpl.
  all: repeat (case_match; try done; cmd_unfold; cmd_glue; simplify_eq/=).
  all: done.
Qed.

Lemma next_Directions_ignored res c :
  (∀ p, mounting c ≠ AwaitDirections p) →
  step getDistance (Directions res) c = (tt, c, []).
Proof.
  intros Hm. unfold step; cmd_glue; simpl.
  destruct (mounting c) eqn:Heq; try done. by destruct (Hm p).
Qed.

(** Once the mount sequence is past the directions request it stays past
    it, and the route is the same after every event. *)
Lemma next_keeps_route e c :
  routePending (mounting c) = false →
  routePending (mounting (next getDistance e c)) = false
  ∧ State.coordinates (state (next getDistance e c))
    = State.coordinates (state c).
Proof.
  intros Hr. destruct e.
  1-6, 8, 13-14:
    rewrite next_body;
    destruct c as [p [cs ss i f d m nav] cn w fk sb mo st sl];
    simpl in *;
    repeat (case_match; try done; cmd_unfold; cmd_glue; simplify_eq/=);
    done.
  - (* Position *)
    rewrite next_body. destruct (subscribed c); [|done].
    pose proof (checkUserLocation_cursor getDistance coords (cursor c) c eq_refl)
      as Hk.
    unfold cursor in Hk. injection Hk as -> _ _ -> _. done.
  - (* PropsChanged *)
    destruct (cursor_PropsChanged getDistance p c) as (pa & k & Hk & _).
    unfold cursor in Hk. injection Hk as -> _ _ -> _. done.
  - (* PressStartNavigation *)
    rewrite next_body. destruct (_ && _); [|done].
    pose proof (startNavigation_cursor (cursor c) c eq_refl) as Hk.
    unfold cursor in Hk. injection Hk as -> _ _ -> _. done.
  - (* StartLocation *)
    destruct (cursor_StartLocation getDistance fromLib c) as (k & Hk & _).
    unfold cursor in Hk. injection Hk as -> _ _ -> _. done.
  - (* Wake *)
    destruct (sleeping c) as [|n] eqn:Hsl.
    + rewrite next_body, Hsl. done.
    + destruct (cursor_Wake getDistance c n Hsl) as [Hk | (k & Hk & _)];
        unfold cursor in Hk; injection Hk as -> _ _ -> _; done.
Qed.

(** X18. The route is loaded at most once: from the moment the mount
    sequence is past its directions request, [coordinates] is the same
    list after every sequence of events, a second answer of the
    directions service included. *)
Theorem route_is_loaded_once (c : Component) (evs : list Event) :
  routePending (mounting c) = false →
  State.coordinates (state (after getDistance evs c))
  = State.coordinates (state c).
Proof.
  revert c. induction evs as [|e evs IH]; intros c Hr; [done|].
  rewrite after_cons.
  destruct (next_keeps_route e c Hr) as [Hr' Hcs].
  by rewrite IH, Hcs.
Qed.

Lemma next_index e c :
  State.currentCoordinateIndex (state (next getDistance e c))
  = State.currentCoordinateIndex (state c)
  ∨ e = Wake
    ∧ State.currentCoordinateIndex (state (next getDistance e c))
      = S (State.currentCoordinateIndex (state c)).
Proof.
  destruct e.
  1-4, 6, 8, 13-14: left; apply light_frame; exact I.
  1: { left. rewrite next_body.
       destruct c as [p [cs ss i f d m nav] cn w fk sb mo st sl]; simpl.
       destruct mo; try done. cmd_unfold; cmd_glue; simpl.
       by destruct cn. }
  - left. rewrite next_body. destruct (subscribed c); [|done].
    pose proof (checkUserLocation_cursor getDistance coords (cursor c) c eq_refl)
      as Hk.
    unfold cursor in Hk. congruence.
  - left. destruct (cursor_PropsChanged getDistance p c) as (pa & k & Hk & _).
    unfold cursor in Hk. congruence.
  - left. rewrite next_body. destruct (_ && _); [|done].
    pose proof (startNavigation_cursor (cursor c) c eq_refl) as Hk.
    unfold cursor in Hk. congruence.
  - left. destruct (cursor_StartLocation getDistance fromLib c) as (k & Hk & _).
    unfold cursor in Hk. congruence.
  - destruct (sleeping c) as [|n] eqn:Hsl.
    + left. rewrite next_body, Hsl. done.
    + destruct (cursor_Wake getDistance c n Hsl) as [Hk | (k & Hk & _)];
        unfold cursor in Hk; [left | right; split; [done|]]; congruence.
Qed.

(** X19. The index never goes back, and it goes forward by at most one for
    each wake-up of the playback: no other event moves it. *)
Theorem index_advances_with_wakes (c : Component) (evs : list Event) :
  (State.currentCoordinateIndex (state c)
   ≤ State.currentCoordinateIndex (state (after getDistance evs c)))%nat
  ∧ (State.currentCoordinateIndex (state (after getDistance evs c))
     ≤ State.currentCoordinateIndex (state c) + wakes evs)%nat.
Proof.
  revert c. induction evs as [|e evs IH]; intros c;
    [rewrite after_nil; simpl; lia|].
  rewrite after_cons. destruct (IH (next getDistance e c)) as [IH1 IH2].
  assert (Hw : (wakes evs ≤ wakes (e :: evs))%nat) by (destruct e; simpl; lia).
  destruct (next_index e c) as [Heq | [-> Heq]]; rewrite Heq in IH1, IH2.
  - lia.
  - change (wakes (Wake :: evs)) with (S (wakes evs)). lia.
Qed.

(** Rules for [stepsShrink]. *)
Lemma stepsShrink_ret {A} (a : A) : stepsShrink (Cmd.ret a).
Proof. intros c. done. Qed.

Lemma stepsShrink_bind {A B} (m : Cmd Component A) (k : A → Cmd Component B) :
  stepsShrink m → (∀ a, stepsShrink (k a)) → stepsShrink (Cmd.bind m k).
Proof. intros Hm Hk c. rewrite post_bind. etrans; [apply Hk | apply Hm]. Qed.

Lemma stepsShrink_get : stepsShrink Cmd.get.
Proof. intros c. done. Qed.

Lemma stepsShrink_gets {A} (f : Component → A) : stepsShrink (Cmd.gets f).
Proof. intros c. done. Qed.

Lemma stepsShrink_emit e : stepsShrink (Cmd.emit e).
Proof. intros c. done. Qed.

Lemma stepsShrink_modify (f : Component → Component) :
  (∀ c, State.steps (state (f c)) = State.steps (state c)) →
  stepsShrink (Cmd.modify f).
Proof. intros Hf c. unfold post; simpl. by rewrite Hf. Qed.

Lemma stepsShrink_when b (m : Cmd Component unit) :
  stepsShrink m → stepsShrink (Cmd.when b m).
Proof. intros Hm. destruct b; [exact Hm | apply stepsShrink_ret]. Qed.

Lemma stepsShrink_animateNavigation coords :
  stepsShrink (animateNavigation getDistance coords).
Proof.
  intros c.
  destruct (animateNavigation_outcome getDistance coords c)
    as [-> | (pre & s & rest & Hst & _ & _ & ->)]; [done|].
  simpl. rewrite Hst. apply sublist_app; [done | by apply sublist_cons].
Qed.

End runs.

#[global] Hint Resolve stepsShrink_ret stepsShrink_get stepsShrink_gets
  stepsShrink_emit stepsShrink_when stepsShrink_bind
  stepsShrink_animateNavigation : shrink.
#[global] Hint Extern 2 (stepsShrink (Cmd.modify _)) =>
  apply stepsShrink_modify; intros [? [] ? ? ? ? ? ? ?]; reflexivity : shrink.
#[global] Hint Extern 3 (stepsShrink (match ?x with _ => _ end)) =>
  destruct x : shrink.
#[global] Hint Extern 3 (stepsShrink (from_option _ _ ?x)) =>
  destruct x; simpl : shrink.
#[global] Hint Extern 4 (stepsShrink _) =>
  progress unfold mbind, Cmd_bind, mret, Cmd_ret, MapRoute.setState : shrink.
#[global] Hint Extern 4 (stepsShrink _) => progress cbv zeta : shrink.

Section runs_of_steps.
Context (getDistance : Coords → option Coords → Distance).

Lemma step_shrinks e :
  (∀ res, e ≠ Directions res) → stepsShrink (step getDistance e).
Proof.
  intros He. destruct e; try (by destruct (He res));
    unfold step, componentDidMount, componentDidMount_status,
      componentDidMount_permission, componentDidMount_location,
      componentDidMount_watch, componentDidUpdate, componentWillUnmount,
      onMapReady, startNavigation, startNavigation_resume,
      simulateNavigation, simulateNavigation_resume, checkUserLocation,
      animateToCoordinates, getDirections, focusOnCoords, getLocation;
    eauto 200 with shrink nocore.
Qed.

(** X20. Once the route is loaded, steps are only ever taken out: after
    every sequence of events the steps are steps of the list the component
    started with, in their order. *)
Theorem steps_only_shrink (c : Component) (evs : list Event) :
  routePending (mounting c) = false →
  State.steps (state (after getDistance evs c))
  `sublist_of` State.steps (state c).
Proof.
  revert c. induction evs as [|e evs IH]; intros c Hr; [done|].
  rewrite after_cons.
  destruct (next_keeps_route getDistance e c Hr) as [Hr' _].
  etrans; [by apply IH|].
  destruct e; try (apply step_shrinks; discriminate).
  unfold next, post. rewrite next_Directions_ignored; [done|].
  intros p Hp. by rewrite Hp in Hr.
Qed.

Lemma step_keeps_navigating e :
  preserves (λ c, State.isNavigation (state c) = true) (step getDistance e).
Proof. destruct e; cmd_unfold; preserve. Qed.

Lemma after_keeps_navigating evs c :
  State.isNavigation (state c) = true →
  State.isNavigation (state (after getDistance evs c)) = true.
Proof.
  revert c. induction evs as [|e evs IH]; intros c Hc; [exact Hc|].
  rewrite after_cons. by apply IH, (step_keeps_navigating e).
Qed.

(** X21. A navigation that has started is never stopped: [isNavigation]
    stays true through every sequence of events, the start-navigation
    button is not rendered again, and a press on it does nothing. *)
Theorem navigation_never_stops (c : Component) (evs : list Event) :
  State.isNavigation (state c) = true →
  State.isNavigation (state (after getDistance evs c)) = true
  ∧ renderNavigationButton (after getDistance evs c) = None
  ∧ step getDistance PressStartNavigation (after getDistance evs c)
    = (tt, after getDistance evs c, []).
Proof.
  intros Hn. apply (after_keeps_navigating evs) in Hn.
  assert (Hb : renderNavigationButton (after getDistance evs c) = None).
  { unfold renderNavigationButton. rewrite Hn. by rewrite orb_true_r. }
  split; [done|]. split; [done|].
  unfold step; cmd_glue; simpl. rewrite Hb. by rewrite andb_false_r.
Qed.

Lemma next_keeps_zoom e c : zoom (next getDistance e c) = zoom c.
Proof.
  destruct e.
  4: { rewrite next_body.
       destruct c as [p [cs ss i f d m nav] cn w fk sb mo st sl]; simpl.
       destruct mo; try done.
       unfold componentDidMount_location, focusOnCoords, getDirections;
         cmd_glue; simpl.
       by repeat (case_match; simplify_eq/=). }
  all: match goal with
       | |- zoom (next _ ?e _) = _ =>
           assert (H : preserves (λ c', zoom c' = zoom c) (step getDistance e))
             by (unfold zoom; cmd_unfold; preserve)
       end;
       by apply H.
Qed.

(** X22. The zoom of the map region is the one the constructor sets:
    through every sequence of events [focusedLocation] keeps the latitude
    delta 0.0122 and the longitude delta width / height * 0.0122. *)
Theorem zoom_is_fixed (width height : Q) (p : Props.t) (fake : bool)
    (evs : list Event) :
  zoom (after getDistance evs (constructor width height p fake))
  = (0.0122, width / height * 0.0122)%Q.
Proof.
  change (0.0122, width / height * 0.0122)%Q
    with (zoom (constructor width height p fake)).
  generalize (constructor width height p fake) as c.
  induction evs as [|e evs IH]; intros c; [done|].
  by rewrite after_cons, IH, next_keeps_zoom.
Qed.

(** Without a route a playback iteration has nothing to play. *)
Lemma simulateNavigation_no_route c :
  State.coordinates (state c) = [] →
  simulateNavigation getDistance c = (tt, c, []).
Proof.
  intros Hcs. unfold simulateNavigation; cmd_glue; simpl. rewrite Hcs; simpl.
  by rewrite andb_false_r.
Qed.

Lemma simulateNavigation_routeless :
  preserves routeless (simulateNavigation getDistance).
Proof.
  intros c Hc. unfold post.
  rewrite simulateNavigation_no_route; [done | apply Hc].
Qed.

Lemma next_keeps_routeless e c : routeless c → routeless (next getDistance e c).
Proof.
  intros Hc. rewrite next_body.
  pose proof Hc as (Hm & Hcs & Hsb & Hd).
  assert (Hgen : ∀ m : Cmd Component unit,
            preserves routeless m → routeless (post m c))
    by (intros m H; by apply H).
  pose proof simulateNavigation_routeless as Hsim.
  destruct e; rewrite ?Hm, ?Hsb; try exact Hc.
  all: try (lazymatch goal with
            | |- context [componentWillUnmount] =>
                destruct (onScreen c); [|exact Hc];
                unfold componentWillUnmount, routeless in *; cmd_glue; simpl;
                destruct (watchid c); simpl; tauto
            end).
  all: apply Hgen; unfold routeless in Hsim |- *.
  all: unfold componentDidUpdate, componentWillUnmount, onMapReady,
         startNavigation, startNavigation_resume, simulateNavigation_resume,
         animateNavigation, getLocation.
  all: eauto 200 with preserve nocore.
Qed.

Lemma after_keeps_routeless evs c :
  routeless c → routeless (after getDistance evs c).
Proof.
  revert c. induction evs as [|e evs IH]; intros c Hc; [exact Hc|].
  rewrite after_cons. by apply IH, next_keeps_routeless.
Qed.

(** X23. With location services switched off the mount sequence opens the
    location settings and ends: the permission helper is not called, and
    whatever happens afterwards there is no route, no arrival is flagged
    and the confirm-arrival button is not rendered. *)
Theorem services_disabled_no_arrival (width height : Q) (p : Props.t)
    (fake : bool) (granted : Js.awaitable bool) (evs : list Event) :
  effects getDistance [DidMount; ProviderStatus false granted]
    (constructor width height p fake)
  = [GetProviderStatus; StartActivity "ACTION_LOCATION_SOURCE_SETTINGS"]
  ∧ State.coordinates
      (state (after getDistance
                ([DidMount; ProviderStatus false granted] ++ evs)
                (constructor width height p fake))) = []
  ∧ State.destinationReached
      (state (after getDistance
                ([DidMount; ProviderStatus false granted] ++ evs)
                (constructor width height p fake))) = false
  ∧ renderConfirmalButton
      (after getDistance ([DidMount; ProviderStatus false granted] ++ evs)
         (constructor width height p fake)) = None.
Proof.
  split; [reflexivity|]. rewrite after_app.
  assert (Hr : routeless
                 (after getDistance [DidMount; ProviderStatus false granted]
                    (constructor width height p fake)))
    by (repeat split).
  apply (after_keeps_routeless evs) in Hr as (_ & Hcs & _ & Hd).
  split; [done|]. split; [done|].
  unfold renderConfirmalButton. rewrite Hd. by rewrite orb_true_r.
Qed.

(** X24. With [showDirections] false the mount sequence focuses the map
    and ends: no directions are requested and no position watch is
    started, and whatever happens afterwards there is no route, no arrival
    is flagged and the confirm-arrival button is not rendered. *)
Theorem no_directions_no_arrival (width height : Q) (p : Props.t)
    (fake : bool) (granted : Js.awaitable bool) (fromLib : Coords)
    (evs : list Event) :
  Props.showDirections p = false →
  Js.lnot_awaitable granted = false →
  (∀ a b : Coords,
     MapboxGetDirections a b
     ∉ effects getDistance
         [DidMount; ProviderStatus true granted; PermissionAwaited;
          MountLocation fromLib]
         (constructor width height p fake))
  ∧ (WatchPosition
     ∉ effects getDistance
         [DidMount; ProviderStatus true granted; PermissionAwaited;
          MountLocation fromLib]
         (constructor width height p fake))
  ∧ State.coordinates
      (state (after getDistance
                ([DidMount; ProviderStatus true granted; PermissionAwaited;
                  MountLocation fromLib] ++ evs)
                (constructor width height p fake))) = []
  ∧ State.destinationReached
      (state (after getDistance
                ([DidMount; ProviderStatus true granted; PermissionAwaited;
                  MountLocation fromLib] ++ evs)
                (constructor width height p fake))) = false
  ∧ renderConfirmalButton
      (after getDistance
         ([DidMount; ProviderStatus true granted; PermissionAwaited;
           MountLocation fromLib] ++ evs)
         (constructor width height p fake)) = None.
Proof.
  intros Hsd Hg.
  assert (Hrun :
    routeless
      (after getDistance
         [DidMount; ProviderStatus true granted; PermissionAwaited;
          MountLocation fromLib]
         (constructor width height p fake))
    ∧ (∀ a b : Coords,
         MapboxGetDirections a b
         ∉ effects getDistance
             [DidMount; ProviderStatus true granted; PermissionAwaited;
              MountLocation fromLib]
             (constructor width height p fake))
    ∧ (WatchPosition
       ∉ effects getDistance
           [DidMount; ProviderStatus true granted; PermissionAwaited;
            MountLocation fromLib]
           (constructor width height p fake))).
  { unfold after, effects, run, step; cmd_unfold; cmd_glue; simpl.
    rewrite Hg; simpl.
    destruct (Js.truthy_num (Props.userLatitude p)); simpl;
      destruct (String.eqb (Props.initialFocus p) "gps"); simpl;
      rewrite Hsd; simpl;
      (split; [by repeat split|]);
      (split; [intros a b|]);
      rewrite ?elem_of_cons, ?elem_of_nil; intuition discriminate. }
  destruct Hrun as (Hr & Hnd & Hnw).
  split; [done|]. split; [done|]. rewrite after_app.
  apply (after_keeps_routeless evs) in Hr as (_ & Hcs & _ & Hd).
  split; [done|]. split; [done|].
  unfold renderConfirmalButton. rewrite Hd. by rewrite orb_true_r.
Qed.

Lemma next_keeps_subscribed e c :
  cancelled c → subscribed c = true → subscribed (next getDistance e c) = true.
Proof.
  intros Hcn Hsb. destruct e.
  14: { rewrite next_body. unfold onScreen. rewrite Hcn.
        by destruct (mounting c). }
  all: match goal with
       | |- subscribed (next _ ?e _) = _ =>
           assert (H : preserves (λ c', subscribed c' = true)
                         (step getDistance e))
             by (cmd_unfold; preserve)
       end;
       by apply H.
Qed.

Lemma after_keeps_subscribed evs c :
  cancelled c → subscribed c = true →
  subscribed (after getDistance evs c) = true.
Proof.
  revert c. induction evs as [|e evs IH]; intros c Hc Hs; [done|].
  rewrite after_cons. apply IH.
  - by apply (step_keeps_cancelled getDistance e).
  - by apply next_keeps_subscribed.
Qed.

Lemma step_Position_subscribed x c :
  subscribed c = true →
  step getDistance (Position x) c = checkUserLocation getDistance x c.
Proof.
  intros Hsb. unfold step; cmd_glue; simpl. rewrite Hsb.
  by destruct (checkUserLocation getDistance x c) as [[[] c1] l1].
Qed.

(** X25. When the component is unmounted before the position watch has
    answered with its subscription, the watch is never removed: the
    unmount makes no call, the subscription arrives afterwards and keeps
    delivering through every later sequence of events, and each location
    it delivers is still handled by [checkUserLocation]. *)
Theorem unmount_before_watch_answer (c : Component) (evs : list Event)
    (x : Coords) :
  mounting c = AwaitWatch →
  cancelNavigation c = false →
  watchid c = false →
  subscribed c = true →
  effects getDistance [WillUnmount; WatchStarted] c = []
  ∧ watchid (after getDistance [WillUnmount; WatchStarted] c) = true
  ∧ subscribed (after getDistance (WillUnmount :: WatchStarted :: evs) c)
    = true
  ∧ step getDistance (Position x)
      (after getDistance (WillUnmount :: WatchStarted :: evs) c)
    = checkUserLocation getDistance x
        (after getDistance (WillUnmount :: WatchStarted :: evs) c).
Proof.
  intros Hm Hcn Hw Hsb.
  assert (H2 : effects getDistance [WillUnmount; WatchStarted] c = []
               ∧ watchid (after getDistance [WillUnmount; WatchStarted] c) = true
               ∧ cancelled (after getDistance [WillUnmount; WatchStarted] c)
               ∧ subscribed (after getDistance [WillUnmount; WatchStarted] c)
                 = true).
  { unfold after, effects, run, step, onScreen, cancelled; cmd_unfold; cmd_glue.
    simpl. rewrite Hm, Hcn; simpl. rewrite Hw; simpl. rewrite Hm; simpl.
    done. }
  destruct H2 as (He & Hw' & Hc' & Hs').
  assert (Hs : subscribed
                 (after getDistance (WillUnmount :: WatchStarted :: evs) c)
               = true).
  { change (WillUnmount :: WatchStarted :: evs)
      with ([WillUnmount; WatchStarted] ++ evs).
    rewrite after_app. by apply after_keeps_subscribed. }
  split; [done|]. split; [done|]. split; [done|].
  by apply step_Position_subscribed.
Qed.

Lemma wake_running c n :
  cancelNavigation c = false →
  sleeping c = S n →
  cursor (next getDistance Wake c)
  = (State.coordinates (state c),
     S (State.currentCoordinateIndex (state c)),
     (if negb (Props.pauseNavigation (props c))
         && bool_decide (S (State.currentCoordinateIndex (state c))
                         < length (State.coordinates (state c)))%nat
      then S n else n),
     mounting c, Props.pauseNavigation (props c))
  ∧ cancelNavigation (next getDistance Wake c) = false.
Proof.
  intros Hcn Hsl. split.
  - rewrite next_body, Hsl.
    unfold mbind, Cmd_bind. rewrite post_bind.
    change (post (Cmd.modify (set_sleeping n)) c) with (set_sleeping n c).
    cbv beta. set (c0 := set_sleeping n c).
    unfold simulateNavigation_resume, mbind, Cmd_bind.
    rewrite post_get_bind.
    change (cancelNavigation c0) with (cancelNavigation c). rewrite Hcn.
    rewrite post_bind. cbv beta.
    rewrite post_setState_mounted by done.
    set (c1 := set_state _ c0).
    rewrite simulateNavigation_cursor.
    subst c1 c0. unfold scheduled. simpl. by rewrite Nat.add_1_r.
  - assert (H : preserves (λ c', cancelNavigation c' = false)
                  (step getDistance Wake)) by (cmd_unfold; preserve).
    by apply H.
Qed.

(** X26. A playback that is running alone plays the route to its end and
    stops: with the component neither unmounted nor paused, one iteration
    asleep and [k] coordinates left from the index on, [k] wake-ups bring
    the index to the length of the route with no iteration asleep, and the
    route is the same. *)
Theorem playback_runs_to_end (c : Component) (n : nat) :
  cancelNavigation c = false →
  Props.pauseNavigation (props c) = false →
  sleeping c = 1%nat →
  (State.currentCoordinateIndex (state c) + S n
   = length (State.coordinates (state c)))%nat →
  State.currentCoordinateIndex
    (state (after getDistance (replicate (S n) Wake) c))
  = length (State.coordinates (state c))
  ∧ sleeping (after getDistance (replicate (S n) Wake) c) = 0%nat
  ∧ State.coordinates (state (after getDistance (replicate (S n) Wake) c))
    = State.coordinates (state c).
Proof.
  revert c. induction n as [|n IH]; intros c Hcn Hp Hsl Hlen;
    change (replicate (S ?k) Wake) with (Wake :: replicate k Wake);
    rewrite after_cons;
    destruct (wake_running c 0 Hcn Hsl) as [Hk Hcn'];
    unfold cursor in Hk; injection Hk as Hcs Hidx Hsl' Hmo Hpa;
    rewrite Hp in Hsl'; simpl in Hsl'.
  - rewrite bool_decide_eq_false_2 in Hsl' by lia.
    rewrite after_nil. split; [lia|]. done.
  - rewrite bool_decide_eq_true_2 in Hsl' by lia.
    destruct (IH (next getDistance Wake c)) as (H1 & H2 & H3);
      [done | by rewrite Hpa | done | rewrite Hcs, Hidx; lia |].
    rewrite H1, H3, Hcs. done.
Qed.

Lemma checkUserLocation_raises_flag x c :
  cancelNavigation c = false →
  withinArrival (getDistance x (last (State.coordinates (state c)))) →
  State.destinationReached (state (post (checkUserLocation getDistance x) c))
  = true.
Proof.
  intros Hcn (m & Hd & Hm).
  destruct (follow_shape getDistance (State.isNavigation (state c)) x c)
    as (ss & l & Hf & _).
  unfold post, checkUserLocation, mbind, Cmd_bind in Hf |- *.
  unfold Cmd.bind at 1. unfold Cmd.get at 1. cbv beta iota zeta.
  unfold Cmd.bind at 1. rewrite Hf. cbv beta iota zeta. rewrite Hd.
  destruct (Z.leb_spec m 20); [|lia]. cmd_glue; simpl. by rewrite Hcn.
Qed.

(** X27. On a component that has not been unmounted, the playback
    iteration that plays the last coordinate of the route flags the
    arrival, provided the helper finds that coordinate within 20 meters of
    itself. *)
Theorem playback_of_last_coordinate_arrives (c : Component) (d : Coords) :
  cancelNavigation c = false →
  Props.pauseNavigation (props c) = false →
  State.coordinates (state c) !! State.currentCoordinateIndex (state c)
  = Some d →
  last (State.coordinates (state c)) = Some d →
  withinArrival (getDistance d (Some d)) →
  State.destinationReached (state (post (simulateNavigation getDistance) c))
  = true.
Proof.
  intros Hcn Hp Hx Hlast Hw.
  assert (Hlt := lookup_lt_Some _ _ _ Hx).
  assert (Hflag := checkUserLocation_raises_flag d c Hcn).
  rewrite Hlast in Hflag. specialize (Hflag Hw).
  unfold post, simulateNavigation in *; cmd_glue; simpl.
  rewrite Hp, Hx; simpl. rewrite bool_decide_eq_true_2 by done.
  destruct (checkUserLocation getDistance d c) as [[[] c1] l1]. done.
Qed.

End runs_of_steps.

Import Samples.

Lemma animateNavigation_stops_at_raise_witness :
  State.steps
    (state (set_state
              (State.set_steps
                 [maneuver 0 100 0; brokenManeuver; maneuver 50 100 90])
              (mounted false)))
  = [maneuver 0 100 0] ++ brokenManeuver :: [maneuver 50 100 90]
  ∧ Forall (maneuverAhead strictDistance (point 50 100)) [maneuver 0 100 0]
  ∧ strictDistance (point 50 100) (Some (step_point brokenManeuver)) = Raise
  ∧ animateNavigation strictDistance (point 50 100)
      (set_state
         (State.set_steps
            [maneuver 0 100 0; brokenManeuver; maneuver 50 100 90])
         (mounted false))
    = (tt,
       set_state
         (State.set_steps
            [maneuver 0 100 0; brokenManeuver; maneuver 50 100 90])
         (mounted false),
       []).
Proof.
  assert (H1 : State.steps
                 (state (set_state
                           (State.set_steps
                              [maneuver 0 100 0; brokenManeuver;
                               maneuver 50 100 90])
                           (mounted false)))
               = [maneuver 0 100 0] ++ brokenManeuver :: [maneuver 50 100 90])
    by reflexivity.
  assert (H2 : Forall (maneuverAhead strictDistance (point 50 100))
                 [maneuver 0 100 0]).
  { constructor; [|constructor]. right. exists 50%Z.
    split; [vm_compute; reflexivity | lia]. }
  assert (H3 : strictDistance (point 50 100) (Some (step_point brokenManeuver))
               = Raise) by (vm_compute; reflexivity).
  split; [exact H1|]. split; [exact H2|]. split; [exact H3|].
  exact (animateNavigation_stops_at_raise strictDistance (point 50 100) _
           [maneuver 0 100 0] brokenManeuver [maneuver 50 100 90] H1 H2 H3).
Defined.

Lemma renderLocationMarker_drawn_witness :
  renderLocationMarker playing = Some (point 0 0)
  ∧ fakeNavigation playing = true
  ∧ State.isMapReady (state playing) = true
  ∧ State.isNavigation (state playing) = true
  ∧ State.coordinates (state playing)
      !! State.currentCoordinateIndex (state playing)
    = Some (point 0 0)
  ∧ (State.currentCoordinateIndex (state playing)
     < length (State.coordinates (state playing)))%nat.
Proof.
  split; [vm_compute; reflexivity|].
  apply (renderLocationMarker_drawn playing (point 0 0)).
  vm_compute; reflexivity.
Defined.

Lemma checkUserLocation_before_navigation_witness :
  State.isNavigation (state leakedWatch) = false
  ∧ ((¬ withinArrival
          (gridDistance (point 95 95)
             (last (State.coordinates (state leakedWatch))))
      ∧ checkUserLocation gridDistance (point 95 95) leakedWatch
        = (tt, leakedWatch, []))
     ∨ (withinArrival
          (gridDistance (point 95 95)
             (last (State.coordinates (state leakedWatch))))
        ∧ cancelNavigation leakedWatch = false
        ∧ checkUserLocation gridDistance (point 95 95) leakedWatch
          = (tt, set_state (State.set_destinationReached true) leakedWatch,
             [OnDestinationReached]))
     ∨ (withinArrival
          (gridDistance (point 95 95)
             (last (State.coordinates (state leakedWatch))))
        ∧ cancelNavigation leakedWatch = true
        ∧ checkUserLocation gridDistance (point 95 95) leakedWatch
          = (tt, leakedWatch, [OnDestinationReached]))).
Proof.
  split; [vm_compute; reflexivity|].
  apply (checkUserLocation_before_navigation gridDistance (point 95 95)
           leakedWatch).
  vm_compute; reflexivity.
Defined.

(** The three outcomes on the sample route. *)
Example checkUserLocation_before_navigation_samples :
  checkUserLocation gridDistance (point 0 0) (mounted false)
  = (tt, mounted false, [])
  ∧ checkUserLocation gridDistance (point 95 95) (mounted false)
    = (tt, set_state (State.set_destinationReached true) (mounted false),
       [OnDestinationReached])
  ∧ checkUserLocation gridDistance (point 95 95) leakedWatch
    = (tt, leakedWatch, [OnDestinationReached]).
Proof. split; [|split]; vm_compute; reflexivity. Qed.

Lemma animateNavigation_far_from_steps_witness :
  Forall (maneuverAhead gridDistance (point 0 0))
    (State.steps (state (mounted false)))
  ∧ animateNavigation gridDistance (point 0 0) (mounted false)
    = (tt, mounted false, []).
Proof.
  assert (H : Forall (maneuverAhead gridDistance (point 0 0))
                (State.steps (state (mounted false)))).
  { change (State.steps (state (mounted false)))
      with [maneuver 0 100 0; maneuver 50 100 90].
    constructor; [|constructor; [|constructor]]; right.
    - exists 100%Z. split; [vm_compute; reflexivity | lia].
    - exists 150%Z. split; [vm_compute; reflexivity | lia]. }
  split; [exact H|].
  exact (animateNavigation_far_from_steps gridDistance (point 0 0)
           (mounted false) H).
Defined.

Lemma propsChanged_unrelated_witness :
  onScreen (mounted false) = true
  ∧ Props.isNavigation noDirections = Props.isNavigation (MapRoute.props (mounted false))
  ∧ Props.pauseNavigation noDirections
    = Props.pauseNavigation (MapRoute.props (mounted false))
  ∧ step gridDistance (PropsChanged noDirections) (mounted false)
    = (tt, set_props noDirections (mounted false), []).
Proof.
  split; [vm_compute; reflexivity|]. split; [vm_compute; reflexivity|].
  split; [vm_compute; reflexivity|].
  apply (propsChanged_unrelated gridDistance noDirections (mounted false));
    vm_compute; reflexivity.
Defined.

Lemma resume_starts_playback_witness :
  onScreen (after gridDistance [PropsChanged paused] (mounted false)) = true
  ∧ Props.pauseNavigation
      (MapRoute.props (after gridDistance [PropsChanged paused] (mounted false)))
    = true
  ∧ Props.pauseNavigation navigate = false
  ∧ State.coordinates
      (state (after gridDistance [PropsChanged paused] (mounted false)))
      !! State.currentCoordinateIndex
           (state (after gridDistance [PropsChanged paused] (mounted false)))
    = Some (point 0 0)
  ∧ sleeping
      (next gridDistance (PropsChanged navigate)
         (after gridDistance [PropsChanged paused] (mounted false)))
    = S (sleeping (after gridDistance [PropsChanged paused] (mounted false)))
  ∧ State.currentCoordinateIndex
      (state (next gridDistance (PropsChanged navigate)
                (after gridDistance [PropsChanged paused] (mounted false))))
    = State.currentCoordinateIndex
        (state (after gridDistance [PropsChanged paused] (mounted false)))
  ∧ ∃ log : list Effect,
      effects gridDistance [PropsChanged navigate]
        (after gridDistance [PropsChanged paused] (mounted false))
      = log ++ [AsyncSleep 1500].
Proof.
  split; [vm_compute; reflexivity|]. split; [vm_compute; reflexivity|].
  split; [vm_compute; reflexivity|]. split; [vm_compute; reflexivity|].
  apply (resume_starts_playback gridDistance navigate
           (after gridDistance [PropsChanged paused] (mounted false))
           (point 0 0));
    vm_compute; reflexivity.
Defined.

(** New props that resume the playback and start the navigation at once:
    the coordinate is played with [isNavigation] still false in the state,
    so the map does not follow it, and the flag is up when
    [componentDidUpdate] is through. *)
Example resume_and_start_sample :
  effects gridDistance [PropsChanged navigate]
    (after gridDistance [PropsChanged paused] (mounted false))
  = [ MapFitToCoordinates [point 0 0; point 0 100];
      MapAnimateToViewingAngle 45;
      LibGetLocation;
      AsyncSleep 1500 ]
  ∧ State.isNavigation
      (state (after gridDistance [PropsChanged paused; PropsChanged navigate]
                (mounted false)))
    = true.
Proof. split; vm_compute; reflexivity. Qed.

Lemma route_is_loaded_once_witness :
  routePending (mounting (mounted false)) = false
  ∧ State.coordinates
      (state (after gridDistance
                [Directions (mkDirectionsResponse [] []); Position (point 0 0)]
                (mounted false)))
    = State.coordinates (state (mounted false)).
Proof.
  split; [vm_compute; reflexivity|].
  apply (route_is_loaded_once gridDistance (mounted false)
           [Directions (mkDirectionsResponse [] []); Position (point 0 0)]).
  vm_compute; reflexivity.
Defined.

Lemma steps_only_shrink_witness :
  routePending (mounting playing) = false
  ∧ State.steps (state (after gridDistance [Wake; Wake] playing))
    `sublist_of` State.steps (state playing).
Proof.
  split; [vm_compute; reflexivity|].
  apply (steps_only_shrink gridDistance playing [Wake; Wake]).
  vm_compute; reflexivity.
Defined.

Lemma navigation_never_stops_witness :
  State.isNavigation (state playing) = true
  ∧ State.isNavigation
      (state (after gridDistance [Wake; PressStartNavigation] playing)) = true
  ∧ renderNavigationButton
      (after gridDistance [Wake; PressStartNavigation] playing) = None
  ∧ step gridDistance PressStartNavigation
      (after gridDistance [Wake; PressStartNavigation] playing)
    = (tt, after gridDistance [Wake; PressStartNavigation] playing, []).
Proof.
  split; [vm_compute; reflexivity|].
  apply (navigation_never_stops gridDistance playing
           [Wake; PressStartNavigation]).
  vm_compute; reflexivity.
Defined.

Lemma no_directions_no_arrival_witness :
  Props.showDirections noDirections = false
  ∧ Js.lnot_awaitable (Js.Promise true) = false
  ∧ (∀ a b : Coords,
       MapboxGetDirections a b
       ∉ effects gridDistance
           [DidMount; ProviderStatus true (Js.Promise true); PermissionAwaited;
            MountLocation (point 0 0)]
           (constructor 360 640 noDirections false))
  ∧ (WatchPosition
     ∉ effects gridDistance
         [DidMount; ProviderStatus true (Js.Promise true); PermissionAwaited;
          MountLocation (point 0 0)]
         (constructor 360 640 noDirections false))
  ∧ State.coordinates
      (state (after gridDistance
                ([DidMount; ProviderStatus true (Js.Promise true);
                  PermissionAwaited; MountLocation (point 0 0)]
                 ++ [Position (point 100 100)])
                (constructor 360 640 noDirections false))) = []
  ∧ State.destinationReached
      (state (after gridDistance
                ([DidMount; ProviderStatus true (Js.Promise true);
                  PermissionAwaited; MountLocation (point 0 0)]
                 ++ [Position (point 100 100)])
                (constructor 360 640 noDirections false))) = false
  ∧ renderConfirmalButton
      (after gridDistance
         ([DidMount; ProviderStatus true (Js.Promise true);
           PermissionAwaited; MountLocation (point 0 0)]
          ++ [Position (point 100 100)])
         (constructor 360 640 noDirections false)) = None.
Proof.
  split; [reflexivity|]. split; [reflexivity|].
  apply (no_directions_no_arrival gridDistance 360 640 noDirections false
           (Js.Promise true) (point 0 0) [Position (point 100 100)]);
    reflexivity.
Defined.

Lemma unmount_before_watch_answer_witness :
  mounting watchPending = AwaitWatch
  ∧ cancelNavigation watchPending = false
  ∧ watchid watchPending = false
  ∧ subscribed watchPending = true
  ∧ effects gridDistance [WillUnmount; WatchStarted] watchPending = []
  ∧ watchid (after gridDistance [WillUnmount; WatchStarted] watchPending) = true
  ∧ subscribed
      (after gridDistance
         (WillUnmount :: WatchStarted :: [Position (point 0 0)]) watchPending)
    = true
  ∧ step gridDistance (Position (point 100 100))
      (after gridDistance
         (WillUnmount :: WatchStarted :: [Position (point 0 0)]) watchPending)
    = checkUserLocation gridDistance (point 100 100)
        (after gridDistance
           (WillUnmount :: WatchStarted :: [Position (point 0 0)]) watchPending).
Proof.
  split; [vm_compute; reflexivity|]. split; [vm_compute; reflexivity|].
  split; [vm_compute; reflexivity|]. split; [vm_compute; reflexivity|].
  apply (unmount_before_watch_answer gridDistance watchPending
           [Position (point 0 0)] (point 100 100));
    vm_compute; reflexivity.
Defined.

(** After the unmount in that order a location at the destination is
    still handled: [onDestinationReached] is called, and the flag of the
    unmounted component stays down. *)
Example unmounted_component_still_called :
  effects gridDistance
    [WillUnmount; WatchStarted; Position (point 100 100)] watchPending
  = [OnDestinationReached]
  ∧ State.destinationReached
      (state (after gridDistance
                [WillUnmount; WatchStarted; Position (point 100 100)]
                watchPending)) = false.
Proof. split; vm_compute; reflexivity. Qed.

Lemma playback_runs_to_end_witness :
  cancelNavigation playing = false
  ∧ Props.pauseNavigation (MapRoute.props playing) = false
  ∧ sleeping playing = 1%nat
  ∧ (State.currentCoordinateIndex (state playing) + 4
     = length (State.coordinates (state playing)))%nat
  ∧ State.currentCoordinateIndex
      (state (after gridDistance (replicate 4 Wake) playing))
    = length (State.coordinates (state playing))
  ∧ sleeping (after gridDistance (replicate 4 Wake) playing) = 0%nat
  ∧ State.coordinates (state (after gridDistance (replicate 4 Wake) playing))
    = State.coordinates (state playing).
Proof.
  split; [vm_compute; reflexivity|]. split; [vm_compute; reflexivity|].
  split; [vm_compute; reflexivity|]. split; [vm_compute; reflexivity|].
  apply (playback_runs_to_end gridDistance playing 3); vm_compute; reflexivity.
Defined.

Lemma playback_of_last_coordinate_arrives_witness :
  cancelNavigation
    (set_state (State.set_currentCoordinateIndex 3) (mounted true))
  = false
  ∧ Props.pauseNavigation
      (MapRoute.props
         (set_state (State.set_currentCoordinateIndex 3) (mounted true)))
    = false
  ∧ State.coordinates
      (state (set_state (State.set_currentCoordinateIndex 3) (mounted true)))
      !! State.currentCoordinateIndex
           (state (set_state (State.set_currentCoordinateIndex 3)
                     (mounted true)))
    = Some (point 100 100)
  ∧ last (State.coordinates
            (state (set_state (State.set_currentCoordinateIndex 3)
                      (mounted true))))
    = Some (point 100 100)
  ∧ withinArrival (gridDistance (point 100 100) (Some (point 100 100)))
  ∧ State.destinationReached
      (state (post (simulateNavigation gridDistance)
                (set_state (State.set_currentCoordinateIndex 3)
                   (mounted true))))
    = true.
Proof.
  assert (Hw : withinArrival
                 (gridDistance (point 100 100) (Some (point 100 100)))).
  { exists 0%Z. split; [vm_compute; reflexivity | lia]. }
  split; [vm_compute; reflexivity|]. split; [vm_compute; reflexivity|].
  split; [vm_compute; reflexivity|]. split; [vm_compute; reflexivity|].
  split; [exact Hw|].
  apply (playback_of_last_coordinate_arrives gridDistance
           (set_state (State.set_currentCoordinateIndex 3) (mounted true))
           (point 100 100));
    [vm_compute; reflexivity.. | exact Hw].
Defined.

(** On an unmounted component the same iteration leaves the flag down. *)
Example unmounted_playback_does_not_flag :
  cancelNavigation
    (set_state (State.set_currentCoordinateIndex 3) startPending) = true
  ∧ State.destinationReached
      (state (post (simulateNavigation gridDistance)
                (set_state (State.set_currentCoordinateIndex 3) startPending)))
    = false.
Proof. split; vm_compute; reflexivity. Qed.

End MapRouteMore.
